(** * Equinox backend: balance mutation and ledger logic

    A shallow embedding of the two server entry points of the repository:

    - [Server]: the relational server (the Express app that imports
      [./db.js] and talks to PostgreSQL, partly through the
      [collection]/[doc] adapter of [db.js] and partly through raw SQL);
    - [Functions]: the document-store server (the Express app exported
      as a Firebase Function, talking to Firestore).

    Both are modelled over one [store] type holding the collections /
    tables [users], [user_auth], [balances], [deposits] and [stocks]
    (the [user_percentages] table is passed to its two handlers as an
    argument of its own).  Handlers are
    state-passing functions [request -> ... -> store -> response * store];
    the clock value and the random part of a fresh uid are explicit
    inputs.

    JavaScript numbers are modelled by [num]: the finite values are exact
    rationals ([Qc]), next to [NaN] and the two infinities.  IEEE-754
    rounding and the sign of zero are not modelled, and a [NUMERIC]
    column is read as the number it holds. *)

From Stdlib Require Import QArith Qcanon Qround ZArith Lia Lqa String Ascii List Bool DecimalString Sorted Permutation.
From stdpp Require Import gmap strings list fin_maps.
Import ListNotations.

Local Open Scope string_scope.
Local Open Scope Z_scope.

(** ** JavaScript numbers *)

Inductive num : Type :=
| Fin (q : Qc)
| NaN
| PInf
| NInf.

Definition Qcltb (x y : Qc) : bool :=
  match Qccompare x y with Lt => true | _ => false end.

Definition Qcleb (x y : Qc) : bool :=
  match Qccompare x y with Gt => false | _ => true end.

Definition Qceqb (x y : Qc) : bool :=
  match Qccompare x y with Eq => true | _ => false end.

Definition qz (z : Z) : Qc := Q2Qc (inject_Z z).

Definition nz (z : Z) : num := Fin (qz z).

(** [Number.isFinite] *)
Definition isFinite (x : num) : bool :=
  match x with Fin _ => true | _ => false end.

(** [x < y] on numbers: false as soon as one side is [NaN]. *)
Definition num_ltb (x y : num) : bool :=
  match x, y with
  | NaN, _ | _, NaN => false
  | Fin a, Fin b => Qcltb a b
  | NInf, NInf => false
  | NInf, _ => true
  | _, PInf => match x with PInf => false | _ => true end
  | _, _ => false
  end.

(** [x <= y] on numbers. *)
Definition num_leb (x y : num) : bool :=
  match x, y with
  | NaN, _ | _, NaN => false
  | Fin a, Fin b => Qcleb a b
  | NInf, _ => true
  | _, PInf => true
  | _, _ => false
  end.

(** [x > y] is [y < x]. *)
Definition num_gtb (x y : num) : bool := num_ltb y x.

(** unary minus *)
Definition num_opp (x : num) : num :=
  match x with
  | Fin a => Fin (- a)%Qc
  | NaN => NaN
  | PInf => NInf
  | NInf => PInf
  end.

Definition num_add (x y : num) : num :=
  match x, y with
  | NaN, _ | _, NaN => NaN
  | Fin a, Fin b => Fin (a + b)%Qc
  | PInf, NInf | NInf, PInf => NaN
  | PInf, _ | _, PInf => PInf
  | NInf, _ | _, NInf => NInf
  end.

Definition num_sub (x y : num) : num := num_add x (num_opp y).

(** sign of a finite value, used by the products with an infinity *)
Definition num_mul (x y : num) : num :=
  match x, y with
  | NaN, _ | _, NaN => NaN
  | Fin a, Fin b => Fin (a * b)%Qc
  | Fin a, PInf | PInf, Fin a =>
      if Qceqb a 0 then NaN else if Qcltb a 0 then NInf else PInf
  | Fin a, NInf | NInf, Fin a =>
      if Qceqb a 0 then NaN else if Qcltb a 0 then PInf else NInf
  | PInf, PInf | NInf, NInf => PInf
  | PInf, NInf | NInf, PInf => NInf
  end.

(** Division; a zero divisor is taken as [+0]. *)
Definition num_div (x y : num) : num :=
  match x, y with
  | NaN, _ | _, NaN => NaN
  | Fin a, Fin b =>
      if Qceqb b 0
      then (if Qceqb a 0 then NaN else if Qcltb a 0 then NInf else PInf)
      else Fin (a / b)%Qc
  | Fin _, _ => Fin 0%Qc
  | _, Fin b => match x with
                | PInf => if Qcltb b 0 then NInf else PInf
                | _ => if Qcltb b 0 then PInf else NInf
                end
  | _, _ => NaN
  end.

(** [x || 0] on a number: [0] and [NaN] are falsy. *)
Definition or0 (x : num) : num :=
  match x with
  | Fin a => if Qceqb a 0 then Fin 0%Qc else x
  | NaN => Fin 0%Qc
  | _ => x
  end.

(** ** Records of the collections / tables *)

(** [users]: [uid TEXT PRIMARY KEY, email TEXT, name TEXT, created_at]. *)
Record user : Type := mkUser {
  user_uid : string;
  user_email : option string;
  user_name : option string;
  user_created_at : Z
}.

(** [user_auth]: [uid, email, password_hash, created_at]. *)
Record auth : Type := mkAuth {
  auth_uid : string;
  auth_email : string;
  password_hash : string;
  auth_created_at : Z
}.

(** [balances]: [uid, balance_usd] (gas), [wallet_balance_usd] (home),
    [updated_at]. *)
Record balance : Type := mkBalance {
  balance_uid : string;
  balance_usd : num;
  wallet_balance_usd : num;
  updated_at : Z
}.

(** [deposits]: [id, uid, amount_usd, note, created_at]; [note] is
    nullable.  The [id] (a [SERIAL] in PostgreSQL, a generated document
    id in Firestore) is modelled by the insertion counter. *)
Record deposit : Type := mkDeposit {
  deposit_id : Z;
  deposit_uid : string;
  amount_usd : num;
  note : option string;
  created_at : Z
}.

(** A stock document as the handlers write it. *)
Record stock : Type := mkStock {
  company : string;
  current_price : num;
  percentage_change : num;
  direction : string;
  stock_updated_at : Z
}.

(** The store: keyed collections are finite maps from the primary key /
    document id; the ledger is a list in insertion order. *)
Record store : Type := mkStore {
  users : gmap string user;
  user_auth : gmap string auth;
  balances : gmap string balance;
  deposits : list deposit;
  stocks : gmap string stock
}.

Definition empty_store : store :=
  {| users := ∅; user_auth := ∅; balances := ∅; deposits := []; stocks := ∅ |}.

Definition set_users (f : gmap string user -> gmap string user) (s : store) : store :=
  {| users := f (users s); user_auth := user_auth s; balances := balances s;
     deposits := deposits s; stocks := stocks s |}.

Definition set_user_auth (f : gmap string auth -> gmap string auth) (s : store) : store :=
  {| users := users s; user_auth := f (user_auth s); balances := balances s;
     deposits := deposits s; stocks := stocks s |}.

Definition set_balances (f : gmap string balance -> gmap string balance) (s : store) : store :=
  {| users := users s; user_auth := user_auth s; balances := f (balances s);
     deposits := deposits s; stocks := stocks s |}.

Definition set_deposits (f : list deposit -> list deposit) (s : store) : store :=
  {| users := users s; user_auth := user_auth s; balances := balances s;
     deposits := f (deposits s); stocks := stocks s |}.

Definition set_stocks (f : gmap string stock -> gmap string stock) (s : store) : store :=
  {| users := users s; user_auth := user_auth s; balances := balances s;
     deposits := deposits s; stocks := f (stocks s) |}.

(** ** Responses *)

(** The profile object [{...user, balance_usd, wallet_balance_usd}]; the
    user part is absent when the spread object is [null]/[undefined]. *)
Record profile : Type := mkProfile {
  profile_user : option user;
  profile_balance_usd : num;
  profile_wallet_balance_usd : num
}.

Inductive response : Type :=
| Err (status : Z) (error : string)           (* res.status(n).json({ error }) *)
| OkProfile (p : option profile)               (* res.json({ ok: true, profile }) *)
| BareProfile (p : profile)                    (* res.json(profile) *)
| OkDeposits (l : list deposit)                (* res.json({ ok: true, deposits }) *)
| OkAttempt                                    (* res.json({ ok: true, message, deposit_id }) *)
| OkStock (newPrice : string).                 (* res.json({ ok: true, message, newPrice }) *)

Definition is_ok (r : response) : bool :=
  match r with Err _ _ => false | _ => true end.

(** The failure tags of the error taxonomy, read off the [error] string
    of a response. *)
Inductive failure : Type :=
| InvalidInput | EmailExists | UserNotFound | NotFound | InvalidCredentials
| InsufficientHomeBalance | InsufficientGasBalance | Unauthorized | StoreFailure.

Definition failure_of_error (error : string) : option failure :=
  if decide (error = "invalid_input") then Some InvalidInput
  else if decide (error = "invalid_params") then Some InvalidInput
  else if decide (error = "email_and_password_required_min_6_chars") then Some InvalidInput
  else if decide (error = "email_and_password_required") then Some InvalidInput
  else if decide (error = "uid_required") then Some InvalidInput
  else if decide (error = "uid is required") then Some InvalidInput
  else if decide (error = "invalid_direction") then Some InvalidInput
  else if decide (error = "email_exists") then Some EmailExists
  else if decide (error = "email_already_registered") then Some EmailExists
  else if decide (error = "user_not_found") then Some UserNotFound
  else if decide (error = "not_found") then Some NotFound
  else if decide (error = "invalid_credentials") then Some InvalidCredentials
  else if decide (error = "insufficient_home_balance") then Some InsufficientHomeBalance
  else if decide (error = "insufficient_gas_balance") then Some InsufficientGasBalance
  else if decide (error = "unauthorized") then Some Unauthorized
  else if decide (error = "internal_error") then Some StoreFailure
  else None.

(** A response seen as a tagged result: the failure tag, or the success
    payload. *)
Inductive outcome : Type :=
| Failed (f : option failure)
| Succeeded (r : response).

Definition outcome_of (r : response) : outcome :=
  match r with
  | Err _ e => Failed (failure_of_error e)
  | _ => Succeeded r
  end.

(** ** Handlers as state-passing computations that may throw *)

Inductive result (A : Type) : Type :=
| Done (a : A)
| Thrown.
Arguments Done {A} a.
Arguments Thrown {A}.

Definition M (A : Type) : Type := store -> result A * store.

Definition ret {A} (a : A) : M A := fun s => (Done a, s).

Definition bind {A B} (m : M A) (k : A -> M B) : M B :=
  fun s => match m s with
           | (Done a, s') => k a s'
           | (Thrown, s') => (Thrown, s')
           end.

Definition throw {A} : M A := fun s => (Thrown, s).

Definition gets {A} (f : store -> A) : M A := fun s => (Done (f s), s).

Definition modify (f : store -> store) : M unit := fun s => (Done tt, f s).

Notation "'let*' x := m 'in' k" := (bind m (fun x => k))
  (at level 10, x name, m at level 100, k at level 200).
Notation "'do' m 'in' k" := (bind m (fun _ => k))
  (at level 10, m at level 100, k at level 200).

(** [try { ... } catch (e) { res.status(500).json({ error: 'internal_error' }) }]:
    writes made before the throw stay. *)
Definition try_catch (h : M response) (s : store) : response * store :=
  match h s with
  | (Done r, s') => (r, s')
  | (Thrown, s') => (Err 500 "internal_error", s')
  end.

(** ** Values of request fields *)

(** [!x] is false exactly for a present, non-empty string. *)
Definition truthy (x : option string) : bool :=
  match x with
  | Some s => negb (String.eqb s "")
  | None => false
  end.

(** [x || null] *)
Definition or_null (x : option string) : option string :=
  if truthy x then x else None.

(** The string of a truthy field. *)
Definition str (x : option string) : string := default "" x.

(** Process-wide configuration and the hash primitive of [crypto]. *)
Class Env : Type := {
  sha256_hex : string -> string;   (* crypto.createHash('sha256').update(p).digest('hex') *)
  ADMIN_KEY : string               (* process.env.ADMIN_KEY || '1738' *)
}.

(** ** Field updates of [doc.update] *)

Inductive field_value : Type :=
| Value (v : num)
| Increment (n : num).        (* the marker built by [increment(n)] *)

Record balance_patch : Type := mkPatch {
  patch_balance_usd : option field_value;
  patch_wallet_balance_usd : option field_value;
  patch_updated_at : option Z
}.

Definition apply_field (old : num) (fv : option field_value) : num :=
  match fv with
  | None => old
  | Some (Value v) => v
  | Some (Increment n) => num_add old n
  end.

Definition apply_patch (p : balance_patch) (b : balance) : balance :=
  {| balance_uid := balance_uid b;
     balance_usd := apply_field (balance_usd b) (patch_balance_usd p);
     wallet_balance_usd := apply_field (wallet_balance_usd b) (patch_wallet_balance_usd p);
     updated_at := default (updated_at b) (patch_updated_at p) |}.

(** ** Queries shared by both servers *)

(** First row of [map_to_list m] satisfying [P]: a [... WHERE ... LIMIT 1]. *)
Definition find_row {A} (P : A -> bool) (m : gmap string A) : option A :=
  snd <$> List.find (fun kv => P (snd kv)) (map_to_list m).

(** [ORDER BY created_at DESC], by insertion. *)
Fixpoint insert_desc (d : deposit) (l : list deposit) : list deposit :=
  match l with
  | [] => [d]
  | x :: l' => if created_at x <? created_at d then d :: l else x :: insert_desc d l'
  end.

Definition order_by_created_at_desc (l : list deposit) : list deposit :=
  foldr insert_desc [] l.

(** The next ledger id. *)
Definition next_id (s : store) : Z := Z.of_nat (length (deposits s)) + 1.

(** SQL [LIKE]: [%] matches any sequence, [_] any one character. *)
Fixpoint like (p s : string) {struct p} : bool :=
  match p with
  | EmptyString => match s with EmptyString => true | _ => false end
  | String c p' =>
      if Ascii.eqb c "%"
      then (fix any (t : string) : bool :=
              like p' t || match t with
                           | EmptyString => false
                           | String _ t' => any t'
                           end) s
      else match s with
           | EmptyString => false
           | String d s' => (Ascii.eqb c "_" || Ascii.eqb c d) && like p' s'
           end
  end.

(** [a === b] on numbers *)
Definition num_eqb (x y : num) : bool :=
  match x, y with
  | Fin a, Fin b => Qceqb a b
  | PInf, PInf | NInf, NInf => true
  | _, _ => false
  end.

(** ** [Number.prototype.toFixed(2)] *)

Definition digit (d : Z) : ascii := ascii_of_nat (48 + Z.to_nat d).

(** For a finite [x] of magnitude below [1e21]: the sign, then the
    integer [n] nearest to [|x| * 100] (the larger one on a tie) written
    with two decimals. *)
Definition toFixed2 (x : num) : string :=
  match x with
  | NaN => "NaN"
  | PInf => "Infinity"
  | NInf => "-Infinity"
  | Fin q =>
      let neg := Qcltb q 0 in
      let a := if neg then (- q)%Qc else q in
      let n := Qfloor (this a * (100 # 1) + (1 # 2))%Q in
      (if neg then "-" else "")
        ++ NilZero.string_of_uint (N.to_uint (Z.to_N (n / 100)))
        ++ "."
        ++ String (digit ((n mod 100) / 10)) (String (digit (n mod 10)) "")
  end.

(** ** Request bodies *)

Record signup_req : Type := mkSignupReq {
  signup_email : option string;
  signup_name : option string;
  signup_password : option string
}.

Record login_req : Type := mkLoginReq {
  login_email : option string;
  login_password : option string
}.

Record register_req : Type := mkRegisterReq {
  register_uid : option string;
  register_email : option string;
  register_name : option string
}.

(** [amountUsd] is [Number(amountUsd)] of the body, and so on. *)
Record manual_req : Type := mkManualReq {
  manual_key : option string;         (* req.header('x-admin-key') *)
  manual_uid : option string;
  manual_amountUsd : num;
  manual_note : option string         (* read by /deposits/manual/home only *)
}.

Record attempt_req : Type := mkAttemptReq {
  attempt_uid : option string;
  attempt_amountUsd : num;
  attempt_asset : option string;
  attempt_address : option string;
  attempt_depositType : option string
}.

Record withdraw_req : Type := mkWithdrawReq {
  withdraw_uid : option string;
  amountUsd : num;                    (* Number(amountUsd) *)
  gasUsd : num;                       (* Number(gasUsd) *)
  displayedUsd : num                  (* Number(displayedUsd) *)
}.

Record stock_req : Type := mkStockReq {
  stock_key : option string;          (* req.header('x-admin-key') *)
  stock_company : option string;
  currentPrice : num;                 (* Number(currentPrice) *)
  percentage : num;                   (* Number(percentage) *)
  stock_direction : option string
}.

(** The balance the withdrawal is checked against: the displayed value
    when it is finite and above the stored home balance. *)
Definition effectiveHome (displayed home_bal : num) : num :=
  if isFinite displayed && num_gtb displayed home_bal then displayed else home_bal.

(** [newPrice] of a stock update. *)
Definition newPrice (price pct : num) (direction : string) : num :=
  let multiplier :=
    if String.eqb direction "up"
    then num_add (nz 1) (num_div pct (nz 100))
    else num_sub (nz 1) (num_div pct (nz 100)) in
  num_mul price multiplier.

(** * The relational server ([db.js] and the Express app on top of it) *)

Module Server.
Section WithEnv.
Context `{Env}.

Definition hashPassword (password : string) : string := sha256_hex password.

(** ** [db.js]: the typed helpers *)

(** [SELECT * FROM user_auth WHERE email = $1 LIMIT 1] *)
Definition findAuthByEmail (email : string) : M (option auth) :=
  gets (fun s => find_row (fun a => String.eqb (auth_email a) email) (user_auth s)).

(** [INSERT ... ON CONFLICT (uid) DO UPDATE SET email, name] *)
Definition createUserRecord (uid : string) (email name : option string) (now : Z) : M unit :=
  modify (set_users (fun m =>
    match m !! uid with
    | Some u => <[uid := mkUser uid email name (user_created_at u)]> m
    | None => <[uid := mkUser uid email name now]> m
    end)).

(** [INSERT ... ON CONFLICT (uid) DO UPDATE SET email, password_hash] *)
Definition createAuthRecord (uid email hash : string) (now : Z) : M unit :=
  modify (set_user_auth (fun m =>
    match m !! uid with
    | Some a => <[uid := mkAuth uid email hash (auth_created_at a)]> m
    | None => <[uid := mkAuth uid email hash now]> m
    end)).

(** [INSERT ... ON CONFLICT (uid) DO UPDATE SET] all three columns *)
Definition upsertBalance (uid : string) (gas home : num) (now : Z) : M unit :=
  modify (set_balances <[uid := mkBalance uid gas home now]>).

(** [INSERT INTO deposits(uid, amount_usd, note, created_at) ... RETURNING id] *)
Definition addDeposit (uid : string) (amount : num) (n : option string) (now : Z) : M unit :=
  modify (fun s => set_deposits (fun l => (l ++ [mkDeposit (next_id s) uid amount n now])%list) s).

Definition getBalance (uid : string) : M (option balance) :=
  gets (fun s => balances s !! uid).

Definition getUserProfile (uid : string) : M (option profile) :=
  let* user := gets (fun s => users s !! uid) in
  match user with
  | None => ret None
  | Some u =>
      let* bal := getBalance uid in
      ret (Some {| profile_user := Some u;
                   profile_balance_usd :=
                     match bal with Some b => balance_usd b | None => nz 0 end;
                   profile_wallet_balance_usd :=
                     match bal with Some b => wallet_balance_usd b | None => nz 0 end |})
  end.

(** ** [db.js]: the [collection(name).doc(id)] adapter *)

(** [doc(id).get()]: [exists] and [data()] of the row with that key *)
Definition users_doc_get (uid : string) : M (option user) :=
  gets (fun s => users s !! uid).

Definition balances_doc_get (uid : string) : M (option balance) :=
  gets (fun s => balances s !! uid).

(** [doc(id).set(data)]: an upsert of every column of [data] *)
Definition users_doc_set (u : user) : M unit :=
  modify (set_users <[user_uid u := u]>).

Definition balances_doc_set (b : balance) : M unit :=
  modify (set_balances <[balance_uid b := b]>).

(** [doc(id).update(patch)]: [UPDATE balances SET ... WHERE uid = id];
    [k = k + n] for an increment marker, [k = v] otherwise *)
Definition balances_doc_update (uid : string) (p : balance_patch) : M unit :=
  modify (set_balances (alter (apply_patch p) uid)).

(** [collection('deposits').add(data)], which stores [data.note || null] *)
Definition deposits_add (uid : string) (amount : num) (n : option string) (now : Z) : M unit :=
  modify (fun s => set_deposits (fun l => (l ++ [mkDeposit (next_id s) uid amount (or_null n) now])%list) s).

(** [.where('uid','==',uid).where('note','==',n).limit(1).get()], its [empty] *)
Definition deposits_where_empty (uid n : string) : M bool :=
  gets (fun s =>
    negb (existsb (fun d => String.eqb (deposit_uid d) uid
                            && bool_decide (note d = Some n)) (deposits s))).

Definition increment (n : num) : field_value := Increment n.

(** The profile built inline by the handlers. *)
Definition inline_profile (u : option user) (b : balance) : profile :=
  {| profile_user := u;
     profile_balance_usd := or0 (balance_usd b);
     profile_wallet_balance_usd := or0 (wallet_balance_usd b) |}.

Definition zero_balance : balance := mkBalance "" (nz 0) (nz 0) 0.

(** ** [POST /api/signup] *)
Definition signup (req : signup_req) (fresh : string) (now : Z) : store -> response * store :=
  try_catch (
    let email := signup_email req in
    let password := signup_password req in
    if negb (truthy email) || negb (truthy password)
       || (String.length (str password) <? 6)%nat
    then ret (Err 400 "invalid_input")
    else
      let* existingAuth := findAuthByEmail (str email) in
      if bool_decide (is_Some existingAuth)
      then ret (Err 409 "email_exists")
      else
        let uid := "uid_" ++ fresh in
        let passwordHash := hashPassword (str password) in
        do createUserRecord uid email (or_null (signup_name req)) now in
        do createAuthRecord uid (str email) passwordHash now in
        do upsertBalance uid (nz 0) (nz 0) now in
        do addDeposit uid (nz 0) (Some "default") now in
        let* profile := getUserProfile uid in
        ret (OkProfile profile)).

(** ** [POST /api/login] *)
Definition login (req : login_req) : store -> response * store :=
  try_catch (
    let email := login_email req in
    let password := login_password req in
    if negb (truthy email) || negb (truthy password)
    then ret (Err 400 "invalid_input")
    else
      let* a := findAuthByEmail (str email) in
      match a with
      | None => ret (Err 404 "not_found")
      | Some a =>
          let passwordHash := hashPassword (str password) in
          if negb (String.eqb (password_hash a) passwordHash)
          then ret (Err 401 "invalid_credentials")
          else
            let* profile := getUserProfile (auth_uid a) in
            ret (OkProfile profile)
      end).

(** ** [POST /api/register] (legacy) *)
Definition register (req : register_req) (now : Z) : store -> response * store :=
  try_catch (
    if negb (truthy (register_uid req))
    then ret (Err 400 "uid is required")
    else
      let uid := str (register_uid req) in
      let DEFAULT_HOME_BALANCE := nz 0 in
      do users_doc_set (mkUser uid (or_null (register_email req))
                               (or_null (register_name req)) now) in
      let* balanceDoc := balances_doc_get uid in
      do match balanceDoc with
         | None => balances_doc_set (mkBalance uid (nz 0) DEFAULT_HOME_BALANCE now)
         | Some balanceData =>
             if num_eqb (or0 (wallet_balance_usd balanceData)) (nz 0)
             then balances_doc_update uid
                    (mkPatch None (Some (Value DEFAULT_HOME_BALANCE)) (Some now))
             else ret tt
         end in
      let* empty := deposits_where_empty uid "default" in
      do (if empty
          then deposits_add uid DEFAULT_HOME_BALANCE (Some "default") now
          else ret tt) in
      let* userDoc := users_doc_get uid in
      let* updatedBalanceDoc := balances_doc_get uid in
      ret (BareProfile (inline_profile userDoc (default zero_balance updatedBalanceDoc)))).

(** ** [POST /api/deposits/manual] (admin credit of the gas balance) *)
Definition deposits_manual (req : manual_req) (now : Z) : store -> response * store :=
  try_catch (
    if negb (bool_decide (manual_key req = Some ADMIN_KEY))
    then ret (Err 401 "unauthorized")
    else
      let amount := manual_amountUsd req in
      if negb (truthy (manual_uid req)) || negb (isFinite amount) || num_leb amount (nz 0)
      then ret (Err 400 "invalid_params")
      else
        let uid := str (manual_uid req) in
        let* userDoc := users_doc_get uid in
        match userDoc with
        | None => ret (Err 404 "user_not_found")
        | Some u =>
            do deposits_add uid amount (Some "gas_fee") now in
            let* balanceDoc := balances_doc_get uid in
            do match balanceDoc with
               | Some _ => balances_doc_update uid
                             (mkPatch (Some (increment amount)) None (Some now))
               | None => balances_doc_set (mkBalance uid amount (nz 0) now)
               end in
            let* updatedBalanceDoc := balances_doc_get uid in
            match updatedBalanceDoc with
            | None => throw
            | Some balanceData => ret (OkProfile (Some (inline_profile (Some u) balanceData)))
            end
        end).

(** ** [POST /api/deposits/manual/home] (admin credit of the home balance) *)
Definition deposits_manual_home (req : manual_req) (now : Z) : store -> response * store :=
  try_catch (
    if negb (bool_decide (manual_key req = Some ADMIN_KEY))
    then ret (Err 401 "unauthorized")
    else
      let amount := manual_amountUsd req in
      if negb (truthy (manual_uid req)) || negb (isFinite amount) || num_leb amount (nz 0)
      then ret (Err 400 "invalid_params")
      else
        let uid := str (manual_uid req) in
        let* userDoc := users_doc_get uid in
        match userDoc with
        | None => ret (Err 404 "user_not_found")
        | Some u =>
            do deposits_add uid amount
                 (if truthy (manual_note req) then manual_note req else Some "wallet") now in
            let* balanceDoc := balances_doc_get uid in
            do match balanceDoc with
               | Some _ => balances_doc_update uid
                             (mkPatch None (Some (increment amount)) (Some now))
               | None => balances_doc_set (mkBalance uid (nz 0) amount now)
               end in
            let* updatedBalanceDoc := balances_doc_get uid in
            match updatedBalanceDoc with
            | None => throw
            | Some balanceData => ret (OkProfile (Some (inline_profile (Some u) balanceData)))
            end
        end).

(** ** [POST /api/deposits/attempt]

    Its [INSERT INTO deposits (uid, amount_usd, note, created_at)] is the
    statement of [addDeposit]. *)
Definition deposits_attempt (req : attempt_req) (now : Z) : store -> response * store :=
  try_catch (
    let amount := attempt_amountUsd req in
    if negb (truthy (attempt_uid req)) || negb (isFinite amount) || num_leb amount (nz 0)
       || negb (truthy (attempt_asset req)) || negb (truthy (attempt_address req))
    then ret (Err 400 "invalid_params")
    else
      let uid := str (attempt_uid req) in
      let* userRow := gets (fun s => users s !! uid) in
      if negb (bool_decide (is_Some userRow))
      then ret (Err 404 "user_not_found")
      else
        let tail := (str (attempt_asset req) ++ "_" ++ str (attempt_address req))%string in
        let n := if bool_decide (attempt_depositType req = Some "gas_fee")
                 then ("gas_fee_attempt_" ++ tail)%string
                 else ("deposit_attempt_" ++ tail)%string in
        do addDeposit uid amount (Some n) now in
        ret OkAttempt).

(** [note NOT LIKE p]: unknown, hence not selected, on a [NULL] note. *)
Definition not_like (n : option string) (p : string) : bool :=
  match n with
  | Some t => negb (like p t)
  | None => false
  end.

(** The [WHERE] clause of the user-visible feed. *)
Definition feed_where (uid : string) (d : deposit) : bool :=
  String.eqb (deposit_uid d) uid
  && not_like (note d) "deposit_attempt_%"
  && not_like (note d) "gas_fee_attempt_%".

(** ** [GET /api/deposits/:uid] *)
Definition list_deposits (uid : option string) : store -> response * store :=
  try_catch (
    if negb (truthy uid)
    then ret (Err 400 "uid_required")
    else
      let* rows := gets (fun s =>
        firstn 20 (order_by_created_at_desc (List.filter (feed_where (str uid)) (deposits s)))) in
      ret (OkDeposits rows)).

(** Columns of the [stocks] table as [initDb] creates it. *)
Definition stocks_columns : list string :=
  ["id"; "symbol"; "name"; "data"; "created_at"].

(** [INSERT INTO stocks (company, current_price, percentage_change,
    direction, updated_at) ... ON CONFLICT (company) DO UPDATE ...]:
    the statement is rejected when it names a column the table lacks
    (the unique index [ON CONFLICT] needs is not looked at). *)
Definition upsert_stock (q : stock) : M unit :=
  if forallb (fun c => existsb (String.eqb c) stocks_columns)
       ["company"; "current_price"; "percentage_change"; "direction"; "updated_at"]
  then modify (set_stocks <[company q := q]>)
  else throw.

(** ** [POST /api/stocks/update-percentage] *)
Definition stocks_update_percentage (req : stock_req) (now : Z) : store -> response * store :=
  try_catch (
    if negb (bool_decide (stock_key req = Some ADMIN_KEY))
    then ret (Err 401 "unauthorized")
    else
      let price := currentPrice req in
      let pct := percentage req in
      if negb (truthy (stock_company req)) || negb (isFinite price) || num_leb price (nz 0)
         || negb (isFinite pct) || num_ltb pct (nz 0) || negb (truthy (stock_direction req))
      then ret (Err 400 "invalid_params")
      else
        let dir := str (stock_direction req) in
        if negb (existsb (String.eqb dir) ["up"; "down"])
        then ret (Err 400 "invalid_direction")
        else
          let p := newPrice price pct dir in
          do upsert_stock (mkStock (str (stock_company req)) p pct dir now) in
          ret (OkStock (toFixed2 p))).

(** ** [POST /api/withdraw] *)
Definition withdraw (req : withdraw_req) (now : Z) : store -> response * store :=
  try_catch (
    let amount := amountUsd req in
    let gas := gasUsd req in
    if negb (truthy (withdraw_uid req)) || negb (isFinite amount) || num_leb amount (nz 0)
       || negb (isFinite gas) || num_ltb gas (nz 0)
    then ret (Err 400 "invalid_params")
    else
      let uid := str (withdraw_uid req) in
      let* balanceDoc := balances_doc_get uid in
      match balanceDoc with
      | None => ret (Err 404 "user_not_found")
      | Some balanceData =>
          let gas_bal := or0 (balance_usd balanceData) in
          let home_bal := or0 (wallet_balance_usd balanceData) in
          let effective := effectiveHome (displayedUsd req) home_bal in
          if num_ltb effective amount
          then ret (Err 400 "insufficient_home_balance")
          else if num_ltb gas_bal gas
          then ret (Err 400 "insufficient_gas_balance")
          else
            do (if num_gtb effective home_bal
                then
                  let bump := num_sub effective home_bal in
                  balances_doc_update uid (mkPatch None (Some (increment bump)) (Some now))
                else ret tt) in
            do balances_doc_update uid
                 (mkPatch (Some (if num_gtb gas (nz 0)
                                 then increment (num_opp gas)
                                 else Value (balance_usd balanceData)))
                          (Some (increment (num_opp amount)))
                          (Some now)) in
            do deposits_add uid (num_opp amount) (Some "withdraw") now in
            do (if num_gtb gas (nz 0)
                then deposits_add uid (num_opp gas) (Some "gas_fee") now
                else ret tt) in
            let* userDoc := users_doc_get uid in
            let* updatedBalanceDoc := balances_doc_get uid in
            match updatedBalanceDoc with
            | None => throw
            | Some updatedBalance => ret (OkProfile (Some (inline_profile userDoc updatedBalance)))
            end
      end).

End WithEnv.
End Server.

(** * The document-store server (the Firebase Function) *)

Module Functions.
Section WithEnv.
Context `{Env}.

Definition hashPassword (password : string) : string := sha256_hex password.

Definition increment (n : num) : field_value := Increment n.

(** ** Firestore document operations *)

Definition users_doc_get (uid : string) : M (option user) :=
  gets (fun s => users s !! uid).

Definition balances_doc_get (uid : string) : M (option balance) :=
  gets (fun s => balances s !! uid).

(** [doc(id).set(data)] replaces the document. *)
Definition users_doc_set (id : string) (u : user) : M unit :=
  modify (set_users <[id := u]>).

Definition user_auth_doc_set (id : string) (a : auth) : M unit :=
  modify (set_user_auth <[id := a]>).

Definition balances_doc_set (id : string) (b : balance) : M unit :=
  modify (set_balances <[id := b]>).

Definition stocks_doc_set (id : string) (q : stock) : M unit :=
  modify (set_stocks <[id := q]>).

(** [doc(id).update(patch)] fails on a missing document. *)
Definition balances_doc_update (id : string) (p : balance_patch) : M unit :=
  let* d := balances_doc_get id in
  match d with
  | None => throw
  | Some b => modify (set_balances <[id := apply_patch p b]>)
  end.

(** [collection('deposits').add(data)] *)
Definition deposits_add (uid : string) (amount : num) (n : option string) (now : Z) : M unit :=
  modify (fun s => set_deposits (fun l => (l ++ [mkDeposit (next_id s) uid amount n now])%list) s).

(** [collection('user_auth').where('email','==',email).limit(1).get()] *)
Definition user_auth_where_email (email : string) : M (option auth) :=
  gets (fun s => find_row (fun a => String.eqb (auth_email a) email) (user_auth s)).

Definition inline_profile (u : option user) (b : balance) : profile :=
  {| profile_user := u;
     profile_balance_usd := or0 (balance_usd b);
     profile_wallet_balance_usd := or0 (wallet_balance_usd b) |}.

Definition zero_balance : balance := mkBalance "" (nz 0) (nz 0) 0.

(** ** [POST /signup] *)
Definition signup (req : signup_req) (fresh : string) (now : Z) : store -> response * store :=
  try_catch (
    let email := signup_email req in
    let password := signup_password req in
    if negb (truthy email) || negb (truthy password)
       || (String.length (str password) <? 6)%nat
    then ret (Err 400 "email_and_password_required_min_6_chars")
    else
      let* existingUser := user_auth_where_email (str email) in
      if bool_decide (is_Some existingUser)
      then ret (Err 400 "email_already_registered")
      else
        let uid := "uid_" ++ fresh in
        let passwordHash := hashPassword (str password) in
        do users_doc_set uid (mkUser uid email (or_null (signup_name req)) now) in
        do user_auth_doc_set uid (mkAuth uid (str email) passwordHash now) in
        let DEFAULT_HOME_BALANCE := nz 0 in
        do balances_doc_set uid (mkBalance uid (nz 0) DEFAULT_HOME_BALANCE now) in
        do deposits_add uid DEFAULT_HOME_BALANCE (Some "default") now in
        let* userDoc := users_doc_get uid in
        let* balanceDoc := balances_doc_get uid in
        let balanceData := default zero_balance balanceDoc in
        ret (OkProfile (Some (inline_profile userDoc balanceData)))).

(** ** [POST /login] *)
Definition login (req : login_req) : store -> response * store :=
  try_catch (
    let email := login_email req in
    let password := login_password req in
    if negb (truthy email) || negb (truthy password)
    then ret (Err 400 "email_and_password_required")
    else
      let* authSnapshot := user_auth_where_email (str email) in
      match authSnapshot with
      | None => ret (Err 401 "invalid_credentials")
      | Some authData =>
          let passwordHash := hashPassword (str password) in
          if negb (String.eqb (password_hash authData) passwordHash)
          then ret (Err 401 "invalid_credentials")
          else
            let* userDoc := users_doc_get (auth_uid authData) in
            let* balanceDoc := balances_doc_get (auth_uid authData) in
            let balanceData := default zero_balance balanceDoc in
            ret (OkProfile (Some (inline_profile userDoc balanceData)))
      end).

(** ** [POST /deposits/manual] *)
Definition deposits_manual (req : manual_req) (now : Z) : store -> response * store :=
  try_catch (
    if negb (bool_decide (manual_key req = Some ADMIN_KEY))
    then ret (Err 401 "unauthorized")
    else
      let amount := manual_amountUsd req in
      if negb (truthy (manual_uid req)) || negb (isFinite amount) || num_leb amount (nz 0)
      then ret (Err 400 "invalid_params")
      else
        let uid := str (manual_uid req) in
        let* userDoc := users_doc_get uid in
        match userDoc with
        | None => ret (Err 404 "user_not_found")
        | Some u =>
            do deposits_add uid amount (Some "gas_fee") now in
            let* balanceDoc := balances_doc_get uid in
            do match balanceDoc with
               | Some _ => balances_doc_update uid
                             (mkPatch (Some (increment amount)) None (Some now))
               | None => balances_doc_set uid (mkBalance uid amount (nz 0) now)
               end in
            let* updatedBalanceDoc := balances_doc_get uid in
            match updatedBalanceDoc with
            | None => throw
            | Some balanceData => ret (OkProfile (Some (inline_profile (Some u) balanceData)))
            end
        end).

(** ** [GET /deposits/:uid] *)
Definition list_deposits (uid : option string) : store -> response * store :=
  try_catch (
    if negb (truthy uid)
    then ret (Err 400 "uid_required")
    else
      let* docs := gets (fun s =>
        firstn 20 (order_by_created_at_desc
                     (List.filter (fun d => String.eqb (deposit_uid d) (str uid)) (deposits s)))) in
      ret (OkDeposits docs)).

(** ** [POST /withdraw] *)
Definition withdraw (req : withdraw_req) (now : Z) : store -> response * store :=
  try_catch (
    let amount := amountUsd req in
    let gas := gasUsd req in
    if negb (truthy (withdraw_uid req)) || negb (isFinite amount) || num_leb amount (nz 0)
       || negb (isFinite gas) || num_ltb gas (nz 0)
    then ret (Err 400 "invalid_params")
    else
      let uid := str (withdraw_uid req) in
      let* balanceDoc := balances_doc_get uid in
      match balanceDoc with
      | None => ret (Err 404 "user_not_found")
      | Some balanceData =>
          let gas_bal := or0 (balance_usd balanceData) in
          let home_bal := or0 (wallet_balance_usd balanceData) in
          let effective := effectiveHome (displayedUsd req) home_bal in
          if num_ltb effective amount
          then ret (Err 400 "insufficient_home_balance")
          else if num_ltb gas_bal gas
          then ret (Err 400 "insufficient_gas_balance")
          else
            do (if num_gtb effective home_bal
                then
                  let bump := num_sub effective home_bal in
                  balances_doc_update uid (mkPatch None (Some (increment bump)) (Some now))
                else ret tt) in
            do balances_doc_update uid
                 (mkPatch (Some (if num_gtb gas (nz 0)
                                 then increment (num_opp gas)
                                 else Value (balance_usd balanceData)))
                          (Some (increment (num_opp amount)))
                          (Some now)) in
            do deposits_add uid (num_opp amount) (Some "withdraw") now in
            do (if num_gtb gas (nz 0)
                then deposits_add uid (num_opp gas) (Some "gas_fee") now
                else ret tt) in
            let* userDoc := users_doc_get uid in
            let* updatedBalanceDoc := balances_doc_get uid in
            match updatedBalanceDoc with
            | None => throw
            | Some updatedBalanceData =>
                ret (OkProfile (Some (inline_profile userDoc updatedBalanceData)))
            end
      end).

(** ** [POST /stocks/update-percentage] *)
Definition stocks_update_percentage (req : stock_req) (now : Z) : store -> response * store :=
  try_catch (
    if negb (bool_decide (stock_key req = Some ADMIN_KEY))
    then ret (Err 401 "unauthorized")
    else
      let price := currentPrice req in
      let pct := percentage req in
      if negb (truthy (stock_company req)) || negb (isFinite price) || num_leb price (nz 0)
         || negb (isFinite pct) || num_ltb pct (nz 0) || negb (truthy (stock_direction req))
      then ret (Err 400 "invalid_params")
      else
        let dir := str (stock_direction req) in
        if negb (existsb (String.eqb dir) ["up"; "down"])
        then ret (Err 400 "invalid_direction")
        else
          let p := newPrice price pct dir in
          let company := str (stock_company req) in
          do stocks_doc_set company (mkStock company p pct dir now) in
          ret (OkStock (toFixed2 p))).

End WithEnv.
End Functions.

(** * Further handlers of the two servers *)

(** [String.prototype.trim], for strings of code units below 256: the
    white space and line terminators there are 9 to 13, 32 and 160. *)
Definition is_space (c : ascii) : bool :=
  let n := nat_of_ascii c in
  ((9 <=? n)%nat && (n <=? 13)%nat) || (n =? 32)%nat || (n =? 160)%nat.

Fixpoint trim_start (s : string) : string :=
  match s with
  | EmptyString => EmptyString
  | String c s' => if is_space c then trim_start s' else s
  end.

Fixpoint trim_end (s : string) : string :=
  match s with
  | EmptyString => EmptyString
  | String c s' =>
      let t := trim_end s' in
      if is_space c && String.eqb t "" then EmptyString else String c t
  end.

Definition trim (s : string) : string := trim_end (trim_start s).

(** [typeof uid === 'string' && uid.trim().length > 0] *)
Definition hasUid (uid : option string) : bool :=
  match uid with
  | Some u => (0 <? String.length (trim u))%nat
  | None => false
  end.

(** A stored percentage setting: the Firestore document
    [{uid, value, direction, updated_at}], or the row
    [uid, percentages = {value, direction}, updated_at]. *)
Record percentage_row : Type := mkRow {
  row_uid : string;
  row_value : num;
  row_direction : string;
  row_updated_at : Z
}.

(** The [percentage] object of a response. *)
Record percentage_view : Type := mkView {
  view_uid : option string;
  view_value : num;
  view_direction : string;
  view_updated_at : option Z
}.

Inductive reply : Type :=
| RErr (status : Z) (error : string)          (* res.status(n).json({ error }) *)
| RUsers (l : list profile)                    (* res.json({ ok: true, users }) *)
| RStocks (l : list stock)                     (* res.json({ ok: true, stocks }) *)
| RPercentage (scope : option string) (p : option percentage_view).
                                               (* res.json({ ok: true, scope?, percentage }) *)

Definition try_catch_reply (h : M reply) (s : store) : reply * store :=
  match h s with
  | (Done r, s') => (r, s')
  | (Thrown, s') => (RErr 500 "internal_error", s')
  end.

Record percentage_req : Type := mkPercentageReq {
  percentage_key : option string;        (* req.header('x-admin-key') *)
  percentage_uid : option string;
  percentage_value : num;                (* Number(value) *)
  percentage_direction : option string
}.

Definition GLOBAL_UID : string := "__global__".

(** [ORDER BY created_at DESC] on user rows, by insertion. *)
Fixpoint insert_user_desc (u : user) (l : list user) : list user :=
  match l with
  | [] => [u]
  | x :: l' =>
      if user_created_at x <? user_created_at u then u :: l else x :: insert_user_desc u l'
  end.

Definition order_users_by_created_at_desc (l : list user) : list user :=
  foldr insert_user_desc [] l.

(** [orderBy('company')]: ascending, by insertion. *)
Fixpoint insert_stock_asc (q : stock) (l : list stock) : list stock :=
  match l with
  | [] => [q]
  | x :: l' =>
      if String.leb (company q) (company x) then q :: l else x :: insert_stock_asc q l'
  end.

Definition order_by_company (l : list stock) : list stock :=
  foldr insert_stock_asc [] l.

(** The rows of a keyed table. *)
Definition rows {A} (m : gmap string A) : list A := (map_to_list m).*2.

Module ServerMore.
Section WithEnv.
Context `{Env}.

(** ** [GET /api/users] *)
Definition list_users (key : option string) : store -> reply * store :=
  try_catch_reply (
    if negb (bool_decide (key = Some ADMIN_KEY))
    then ret (RErr 401 "unauthorized")
    else
      let* usersSnapshot := gets (fun s => order_users_by_created_at_desc (rows (users s))) in
      let* users := gets (fun s =>
        List.map (fun userData =>
                    Server.inline_profile (Some userData)
                      (default Server.zero_balance (balances s !! user_uid userData)))
                 usersSnapshot) in
      ret (RUsers users)).

(** ** [GET /api/profile/:uid] *)
Definition get_profile (uid : string) : store -> response * store :=
  try_catch (
    let* userDoc := Server.users_doc_get uid in
    match userDoc with
    | None => ret (Err 404 "not_found")
    | Some u =>
        let* balanceDoc := Server.balances_doc_get uid in
        let balanceData := default Server.zero_balance balanceDoc in
        ret (BareProfile (Server.inline_profile (Some u) balanceData))
    end).

(** ** [GET /api/deposits/admin/:uid] *)
Definition list_deposits_admin (key uid : option string) : store -> response * store :=
  try_catch (
    if negb (bool_decide (key = Some ADMIN_KEY))
    then ret (Err 401 "unauthorized")
    else if negb (truthy uid)
    then ret (Err 400 "uid_required")
    else
      let* rows := gets (fun s =>
        firstn 50 (order_by_created_at_desc
                     (List.filter (fun d => String.eqb (deposit_uid d) (str uid))
                                  (deposits s)))) in
      ret (OkDeposits rows)).

(** ** [GET /api/stocks]

    [SELECT company, current_price, percentage_change, direction,
    updated_at FROM stocks ORDER BY company ASC], rejected like the
    [INSERT] when the table lacks a named column. *)
Definition list_stocks : store -> reply * store :=
  try_catch_reply (
    let* stocks :=
      if forallb (fun c => existsb (String.eqb c) Server.stocks_columns)
           ["company"; "current_price"; "percentage_change"; "direction"; "updated_at"]
      then gets (fun s => order_by_company (rows (stocks s)))
      else throw in
    ret (RStocks stocks)).

(** ** [GET /api/percentage/current]

    [t] is the [user_percentages] table. *)
Definition percentage_current (uid : option string) (t : gmap string percentage_row)
  : reply :=
  let view r := mkView None (row_value r) (row_direction r) None in
  match (if hasUid uid then t !! str uid else None) with
  | Some r => RPercentage None (Some (view r))
  | None =>
      match t !! GLOBAL_UID with
      | Some r => RPercentage None (Some (view r))
      | None => RPercentage None (Some (mkView None (nz 0) "neutral" None))
      end
  end.

(** ** [POST /api/percentage/update]

    [user_percentages.uid] references [users(uid)]: the upsert of a key
    without a user row is rejected. *)
Definition percentage_update (req : percentage_req) (now : Z) (s : store)
    (t : gmap string percentage_row) : reply * gmap string percentage_row :=
  if negb (bool_decide (percentage_key req = Some ADMIN_KEY))
  then (RErr 401 "unauthorized", t)
  else
    let percentageValue := percentage_value req in
    if negb (isFinite percentageValue) || num_ltb percentageValue (nz 0)
    then (RErr 400 "invalid_percentage_value", t)
    else if negb (existsb (String.eqb (str (percentage_direction req)))
                          ["up"; "down"; "neutral"])
    then (RErr 400 "invalid_direction", t)
    else
      let direction := str (percentage_direction req) in
      let percentageData := mkView None percentageValue direction None in
      if hasUid (percentage_uid req)
      then
        let uid := str (percentage_uid req) in
        match users s !! uid with
        | None => (RErr 404 "user_not_found", t)
        | Some _ =>
            (RPercentage (Some "user") (Some percentageData),
             <[uid := mkRow uid percentageValue direction now]> t)
        end
      else
        match users s !! GLOBAL_UID with
        | None => (RErr 500 "internal_error", t)
        | Some _ =>
            (RPercentage (Some "global") (Some percentageData),
             <[GLOBAL_UID := mkRow GLOBAL_UID percentageValue direction now]> t)
        end.

End WithEnv.
End ServerMore.

Module FunctionsMore.
Section WithEnv.
Context `{Env}.

(** ** [GET /users] *)
Definition list_users (key : option string) : store -> reply * store :=
  try_catch_reply (
    if negb (bool_decide (key = Some ADMIN_KEY))
    then ret (RErr 401 "unauthorized")
    else
      let* usersSnapshot := gets (fun s => order_users_by_created_at_desc (rows (users s))) in
      let* users := gets (fun s =>
        List.map (fun userData =>
                    Functions.inline_profile (Some userData)
                      (default Functions.zero_balance (balances s !! user_uid userData)))
                 usersSnapshot) in
      ret (RUsers users)).

(** ** [GET /profile/:uid] *)
Definition get_profile (uid : string) : store -> response * store :=
  try_catch (
    let* userDoc := Functions.users_doc_get uid in
    match userDoc with
    | None => ret (Err 404 "not_found")
    | Some u =>
        let* balanceDoc := Functions.balances_doc_get uid in
        let balanceData := default Functions.zero_balance balanceDoc in
        ret (BareProfile (Functions.inline_profile (Some u) balanceData))
    end).

(** ** [GET /stocks] *)
Definition list_stocks : store -> reply * store :=
  try_catch_reply (
    let* stocks := gets (fun s => order_by_company (rows (stocks s))) in
    ret (RStocks stocks)).

Definition doc_view (r : percentage_row) : percentage_view :=
  mkView (Some (row_uid r)) (row_value r) (row_direction r) (Some (row_updated_at r)).

(** ** [GET /percentage/current]

    [t] is the [user_percentages] collection, [now] the clock read for
    the default. *)
Definition percentage_current (uid : option string) (now : Z)
    (t : gmap string percentage_row) : reply :=
  let uid := trim (default "" (or_null uid)) in
  match (if negb (String.eqb uid "") then t !! uid else None) with
  | Some r => RPercentage (Some "user") (Some (doc_view r))
  | None =>
      let percentageData :=
        match t !! GLOBAL_UID with
        | Some r => doc_view r
        | None => mkView None (nz 0) "neutral" (Some now)
        end in
      RPercentage (Some "global") (Some percentageData)
  end.

(** ** [POST /percentage/update] *)
Definition percentage_update (req : percentage_req) (now : Z) (s : store)
    (t : gmap string percentage_row) : reply * gmap string percentage_row :=
  if negb (bool_decide (percentage_key req = Some ADMIN_KEY))
  then (RErr 401 "unauthorized", t)
  else
    let percentageValue := percentage_value req in
    if negb (isFinite percentageValue) || num_ltb percentageValue (nz 0)
    then (RErr 400 "invalid_percentage_value", t)
    else if negb (existsb (String.eqb (str (percentage_direction req)))
                          ["up"; "down"; "neutral"])
    then (RErr 400 "invalid_direction", t)
    else
      let direction := str (percentage_direction req) in
      if hasUid (percentage_uid req)
      then
        let uid := str (percentage_uid req) in
        match users s !! uid with
        | None => (RErr 404 "user_not_found", t)
        | Some _ =>
            let t' := <[uid := mkRow uid percentageValue direction now]> t in
            (RPercentage (Some "user") (doc_view <$> t' !! uid), t')
        end
      else
        let t' := <[GLOBAL_UID := mkRow GLOBAL_UID percentageValue direction now]> t in
        (RPercentage (Some "global") (doc_view <$> t' !! GLOBAL_UID), t').

End WithEnv.
End FunctionsMore.

(** * Notions used in the statements *)

(** A configuration for the worked examples; the hash stands in for
    SHA-256. *)
Definition sample_env : Env :=
  {| sha256_hex := fun password => ("sha256:" ++ password)%string;
     ADMIN_KEY := "1738" |}.

(** The parameter check of both withdraw handlers. *)
Definition withdraw_invalid (req : withdraw_req) : bool :=
  negb (truthy (withdraw_uid req)) || negb (isFinite (amountUsd req))
  || num_leb (amountUsd req) (nz 0)
  || negb (isFinite (gasUsd req)) || num_ltb (gasUsd req) (nz 0).

(** The balance document after the (optional) bump and the deduction. *)
Definition withdrawn (req : withdraw_req) (now : Z) (b : balance) : balance :=
  let home_bal := or0 (wallet_balance_usd b) in
  let effective := effectiveHome (displayedUsd req) home_bal in
  let bumped :=
    if num_gtb effective home_bal
    then apply_patch (mkPatch None (Some (Increment (num_sub effective home_bal))) (Some now)) b
    else b in
  apply_patch
    (mkPatch (Some (if num_gtb (gasUsd req) (nz 0)
                    then Increment (num_opp (gasUsd req))
                    else Value (balance_usd b)))
             (Some (Increment (num_opp (amountUsd req))))
             (Some now))
    bumped.

(** The ledger entries a successful withdrawal appends. *)
Definition withdraw_entries (req : withdraw_req) (now : Z) (uid : string) (id : Z)
  : list deposit :=
  mkDeposit id uid (num_opp (amountUsd req)) (Some "withdraw") now
  :: (if num_gtb (gasUsd req) (nz 0)
      then [mkDeposit (id + 1) uid (num_opp (gasUsd req)) (Some "gas_fee") now]
      else []).

(** What either withdraw handler computes, written without the monad. *)
Definition withdraw_result (req : withdraw_req) (now : Z) (s : store) : response * store :=
  if withdraw_invalid req then (Err 400 "invalid_params", s)
  else
    let uid := str (withdraw_uid req) in
    match balances s !! uid with
    | None => (Err 404 "user_not_found", s)
    | Some b =>
        if num_ltb (effectiveHome (displayedUsd req) (or0 (wallet_balance_usd b)))
                   (amountUsd req)
        then (Err 400 "insufficient_home_balance", s)
        else if num_ltb (or0 (balance_usd b)) (gasUsd req)
        then (Err 400 "insufficient_gas_balance", s)
        else
          let b' := withdrawn req now b in
          (OkProfile (Some (mkProfile (users s !! uid) (or0 (balance_usd b'))
                                      (or0 (wallet_balance_usd b')))),
           {| users := users s; user_auth := user_auth s;
              balances := <[uid := b']> (balances s);
              deposits := (deposits s ++ withdraw_entries req now uid (next_id s))%list;
              stocks := stocks s |})
    end.

(** The uid carried by a profile response. *)
Definition response_uid (r : response) : option string :=
  match r with
  | OkProfile (Some p) | BareProfile p => user_uid <$> profile_user p
  | _ => None
  end.

(** The predicate of the lookup by email. *)
Definition email_is (email : string) (a : auth) : bool := String.eqb (auth_email a) email.


(** A pattern without [%]. *)
Fixpoint literal (p : string) : bool :=
  match p with
  | EmptyString => true
  | String c p' => negb (Ascii.eqb c "%") && literal p'
  end.

(** A note that marks an unconfirmed attempt. *)
Definition attempt_note (d : deposit) : Prop :=
  exists n, note d = Some n
            /\ (String.prefix "deposit_attempt_" n = true
                \/ String.prefix "gas_fee_attempt_" n = true).

(** The parameter check of both stock handlers. *)
Definition stock_invalid (req : stock_req) : bool :=
  negb (truthy (stock_company req)) || negb (isFinite (currentPrice req))
  || num_leb (currentPrice req) (nz 0)
  || negb (isFinite (percentage req)) || num_ltb (percentage req) (nz 0)
  || negb (truthy (stock_direction req)).







Section Steps.
Context `{Env}.

(** One state-changing request, on either server. *)
Inductive step : store -> store -> Prop :=
| step_server_signup req fresh now s :
    step s (Server.signup req fresh now s).2
| step_server_register req now s :
    step s (Server.register req now s).2
| step_server_deposits_manual req now s :
    step s (Server.deposits_manual req now s).2
| step_server_deposits_manual_home req now s :
    step s (Server.deposits_manual_home req now s).2
| step_server_deposits_attempt req now s :
    step s (Server.deposits_attempt req now s).2
| step_server_stocks_update_percentage req now s :
    step s (Server.stocks_update_percentage req now s).2
| step_server_withdraw req now s :
    step s (Server.withdraw req now s).2
| step_functions_signup req fresh now s :
    step s (Functions.signup req fresh now s).2
| step_functions_deposits_manual req now s :
    step s (Functions.deposits_manual req now s).2
| step_functions_stocks_update_percentage req now s :
    step s (Functions.stocks_update_percentage req now s).2
| step_functions_withdraw req now s :
    step s (Functions.withdraw req now s).2.

(** The stores reached from the empty one by such requests. *)
Definition reachable (s : store) : Prop := rtc step empty_store s.

End Steps.

(** ** Sample stores and requests *)

(** The spec's example: stored 100, displayed 120, amount 110. *)
Definition c1_store : store :=
  {| users := ∅; user_auth := ∅;
     balances := {[ "uid_a" := mkBalance "uid_a" (nz 0) (nz 100) 0 ]};
     deposits := []; stocks := ∅ |}.

Definition c1_req : withdraw_req :=
  {| withdraw_uid := Some "uid_a"; amountUsd := nz 110; gasUsd := nz 0;
     displayedUsd := nz 120 |}.

(** A balance on which both checks fail at once. *)
Definition c2_store : store :=
  {| users := ∅; user_auth := ∅;
     balances := {[ "uid_a" := mkBalance "uid_a" (nz 0) (nz 0) 0 ]};
     deposits := []; stocks := ∅ |}.

Definition c2_req : withdraw_req :=
  {| withdraw_uid := Some "uid_a"; amountUsd := nz 10; gasUsd := nz 5;
     displayedUsd := NaN |}.

Definition c2_gas_req : withdraw_req :=
  {| withdraw_uid := Some "uid_a"; amountUsd := nz 10; gasUsd := nz 5;
     displayedUsd := nz 10 |}.

Definition c4_store : store :=
  {| users := ∅; user_auth := ∅;
     balances := {[ "uid_a" := mkBalance "uid_a" (nz 10) (nz 100) 0 ]};
     deposits := []; stocks := ∅ |}.

Definition c4_req : withdraw_req :=
  {| withdraw_uid := Some "uid_a"; amountUsd := nz 30; gasUsd := nz 5;
     displayedUsd := NaN |}.

Definition c9_req : signup_req :=
  mkSignupReq (Some "ann@example.org") (Some "Ann") (Some "secret1").



(** A freshly signed-up user, whose stored home balance is 0. *)
Definition c10_store : store :=
  (Functions.signup (H := sample_env) c9_req "k3x9a1b2c3d4" 5 empty_store).2.

(** * Notions used in the further properties *)

(** The store after a successful signup that wrote the user row [u] and
    the credential row [a]. *)
Definition signed_up (fresh : string) (now : Z) (u : user) (a : auth) (s : store) : store :=
  let uid := ("uid_" ++ fresh)%string in
  {| users := <[uid := u]> (users s);
     user_auth := <[uid := a]> (user_auth s);
     balances := <[uid := mkBalance uid (nz 0) (nz 0) now]> (balances s);
     deposits := (deposits s ++ [mkDeposit (next_id s) uid (nz 0) (Some "default") now])%list;
     stocks := stocks s |}.

(** The parameter check of both signup handlers. *)
Definition signup_invalid (req : signup_req) : bool :=
  negb (truthy (signup_email req)) || negb (truthy (signup_password req))
  || (String.length (str (signup_password req)) <? 6)%nat.






(** A request with its [displayedUsd] left out ([Number(undefined)]). *)
Definition without_displayed (req : withdraw_req) : withdraw_req :=
  {| withdraw_uid := withdraw_uid req; amountUsd := amountUsd req;
     gasUsd := gasUsd req; displayedUsd := NaN |}.


Definition x_attempt_req : attempt_req :=
  {| attempt_uid := Some "uid_k3x9a1b2c3d4"; attempt_amountUsd := nz 20;
     attempt_asset := Some "BTC"; attempt_address := Some "bc1q";
     attempt_depositType := None |}.

Definition x_register_req : register_req :=
  {| register_uid := Some "uid_k3x9a1b2c3d4"; register_email := Some "ann@example.org";
     register_name := None |}.

(** The [uid] filter of the listings. *)
Definition of_uid (uid : string) (d : deposit) : bool := String.eqb (deposit_uid d) uid.

(** The [default] ledger entries of a uid. *)
Definition default_entry (uid : string) (d : deposit) : bool :=
  String.eqb (deposit_uid d) uid && bool_decide (note d = Some "default").

(** The store and the answer of an accepted [register]. *)
Definition register_result (req : register_req) (now : Z) (s : store) : response * store :=
  let uid := str (register_uid req) in
  let u := mkUser uid (or_null (register_email req)) (or_null (register_name req)) now in
  let bs :=
    match balances s !! uid with
    | None => <[uid := mkBalance uid (nz 0) (nz 0) now]> (balances s)
    | Some b =>
        if num_eqb (or0 (wallet_balance_usd b)) (nz 0)
        then <[uid := mkBalance (balance_uid b) (balance_usd b) (nz 0) now]> (balances s)
        else balances s
    end in
  let ds :=
    if existsb (default_entry uid) (deposits s)
    then deposits s
    else (deposits s ++ [mkDeposit (next_id s) uid (nz 0) (Some "default") now])%list in
  (BareProfile (Server.inline_profile (Some u) (default Server.zero_balance (bs !! uid))),
   {| users := <[uid := u]> (users s); user_auth := user_auth s; balances := bs;
      deposits := ds; stocks := stocks s |}).

(** A store with one user who holds 10 of gas balance and 100 of home
    balance. *)
Definition x_store : store :=
  {| users := {[ "uid_a" := mkUser "uid_a" (Some "ann@example.org") (Some "Ann") 1 ]};
     user_auth := {[ "uid_a" := mkAuth "uid_a" "ann@example.org" "sha256:secret1" 1 ]};
     balances := {[ "uid_a" := mkBalance "uid_a" (nz 10) (nz 100) 2 ]};
     deposits := [mkDeposit 1 "uid_a" (nz 0) (Some "default") 1];
     stocks := ∅ |}.




(** The parameter checks of both percentage updates. *)
Definition percentage_invalid (req : percentage_req) : bool :=
  negb (isFinite (percentage_value req)) || num_ltb (percentage_value req) (nz 0)
  || negb (existsb (String.eqb (str (percentage_direction req))) ["up"; "down"; "neutral"]).

Definition reply_ok (r : reply) : bool :=
  match r with RErr _ _ => false | _ => true end.


Definition x_percentage_req : percentage_req :=
  {| percentage_key := Some "1738"; percentage_uid := Some "uid_a";
     percentage_value := nz 12; percentage_direction := Some "up" |}.

Definition x_global_req : percentage_req :=
  {| percentage_key := Some "1738"; percentage_uid := None;
     percentage_value := nz 3; percentage_direction := Some "down" |}.


(** [s'] has every key of [s] in each keyed collection, and its ledger
    is the ledger of [s] followed by entries numbered on from it. *)
Definition grows (s s' : store) : Prop :=
  (forall k, is_Some (users s !! k) -> is_Some (users s' !! k))
  /\ (forall k, is_Some (user_auth s !! k) -> is_Some (user_auth s' !! k))
  /\ (forall k, is_Some (balances s !! k) -> is_Some (balances s' !! k))
  /\ (forall k, is_Some (stocks s !! k) -> is_Some (stocks s' !! k))
  /\ exists l,
       deposits s' = (deposits s ++ l)%list
       /\ forall (j : nat) (d : deposit),
            l !! j = Some d -> deposit_id d = Z.of_nat (length (deposits s) + j) + 1.

(** The credential table is left as it was. *)
Definition auth_kept (s s' : store) : Prop := user_auth s' = user_auth s.

(** A computation whose final store is related to its initial one. *)
Definition respects (R : store -> store -> Prop) {A} (m : M A) : Prop :=
  forall s, R s (m s).2.

(** Every credential row is stored under its own uid, next to a user row
    and a balance document of that uid, and no two credential rows share
    an email. *)
Definition credentials_ok (s : store) : Prop :=
  (forall k a, user_auth s !! k = Some a ->
     auth_uid a = k /\ is_Some (users s !! k) /\ is_Some (balances s !! k))
  /\ (forall k1 k2 a1 a2,
        user_auth s !! k1 = Some a1 -> user_auth s !! k2 = Some a2 ->
        auth_email a1 = auth_email a2 -> k1 = k2).

(** * Properties *)

Example like_check :
  like "deposit_attempt_%" "deposit_attempt_BTC_addr" = true /\
  like "deposit_attempt_%" "depositXattemptY" = true /\
  like "deposit_attempt_%" "withdraw" = false.
Proof. repeat split; reflexivity. Qed.

Example toFixed2_check :
  toFixed2 (nz 110) = "110.00" /\
  toFixed2 (Fin (Q2Qc (1005 # 1000))) = "1.01" /\
  toFixed2 (Fin (Q2Qc (- 5 # 1000))) = "-0.01" /\
  toFixed2 (Fin (Q2Qc (12344 # 1000))) = "12.34".
Proof. repeat split; reflexivity. Qed.

(** ** Rational comparisons *)





Lemma Qceqb_eq (x y : Qc) : Qceqb x y = true <-> x = y.
Proof.
  unfold Qceqb. rewrite Qceq_alt.
  destruct (x ?= y)%Qc; split; congruence.
Qed.



Lemma or0_Fin (q : Qc) : or0 (Fin q) = Fin q.
Proof.
  simpl. destruct (Qceqb q 0) eqn:E; [|reflexivity].
  apply Qceqb_eq in E. now subst.
Qed.

Lemma or0_id (x : num) : x <> NaN -> or0 x = x.
Proof. destruct x; try reflexivity; [intros _; apply or0_Fin | congruence]. Qed.

Lemma num_ltb_or0 (x y : num) : num_ltb x y = true -> num_ltb (or0 x) y = true.
Proof.
  intros Hlt. rewrite or0_id; [exact Hlt|]. intros ->. discriminate.
Qed.

(** ** Withdraw in closed form *)

Lemma Server_withdraw_eq (req : withdraw_req) (now : Z) (s : store) :
  Server.withdraw req now s = withdraw_result req now s.
Proof.
  unfold Server.withdraw, withdraw_result, withdraw_invalid, try_catch.
  destruct (negb (truthy (withdraw_uid req)) || negb (isFinite (amountUsd req))
            || num_leb (amountUsd req) (nz 0)
            || negb (isFinite (gasUsd req)) || num_ltb (gasUsd req) (nz 0)); [reflexivity|].
  unfold bind, Server.balances_doc_get, gets. cbn beta iota.
  destruct (balances s !! str (withdraw_uid req)) as [b|] eqn:Hb; [|reflexivity].
  destruct (num_ltb _ (amountUsd req)); [reflexivity|].
  destruct (num_ltb _ (gasUsd req)); [reflexivity|].
  unfold withdrawn, withdraw_entries, Server.balances_doc_update, Server.deposits_add,
    Server.users_doc_get, Server.balances_doc_get, Server.inline_profile, Server.increment,
    modify, gets, ret, set_balances, set_deposits, next_id.
  destruct (num_gtb (effectiveHome _ _) _), (num_gtb (gasUsd req) (nz 0));
    cbn [users user_auth balances deposits stocks fst snd];
    rewrite ?(alter_alt_Some _ _ _ _ Hb), ?alter_insert_eq, ?lookup_insert_eq,
      ?insert_insert_eq, ?lookup_alter_eq, ?Hb;
    cbn [fmap option_fmap option_map or_null truthy String.eqb negb];
    rewrite <- ?app_assoc, ?length_app; cbn [length app];
    repeat f_equal; lia.
Qed.

Lemma Functions_withdraw_eq (req : withdraw_req) (now : Z) (s : store) :
  Functions.withdraw req now s = withdraw_result req now s.
Proof.
  unfold Functions.withdraw, withdraw_result, withdraw_invalid, try_catch.
  destruct (negb (truthy (withdraw_uid req)) || negb (isFinite (amountUsd req))
            || num_leb (amountUsd req) (nz 0)
            || negb (isFinite (gasUsd req)) || num_ltb (gasUsd req) (nz 0)); [reflexivity|].
  unfold bind, Functions.balances_doc_get, gets. cbn beta iota.
  destruct (balances s !! str (withdraw_uid req)) as [b|] eqn:Hb; [|reflexivity].
  destruct (num_ltb _ (amountUsd req)); [reflexivity|].
  destruct (num_ltb _ (gasUsd req)); [reflexivity|].
  unfold withdrawn, withdraw_entries, Functions.balances_doc_update, Functions.deposits_add,
    Functions.users_doc_get, Functions.balances_doc_get, Functions.inline_profile,
    Functions.increment, bind, modify, gets, ret, set_balances, set_deposits, next_id.
  destruct (num_gtb (effectiveHome _ _) _), (num_gtb (gasUsd req) (nz 0));
    repeat first [ progress cbn [users user_auth balances deposits stocks fst snd]
                 | rewrite Hb | rewrite lookup_insert_eq | rewrite insert_insert_eq ];
    rewrite <- ?app_assoc, ?length_app; cbn [length app];
    repeat f_equal; lia.
Qed.





(** ** Claims on Withdraw *)



(** C2, as amended.  For a well-formed request on an existing balance:
    when the effective home balance is below the amount, both servers
    answer [insufficient_home_balance]; when it covers the amount and the
    gas balance is below the gas, both answer
    [insufficient_gas_balance]; in both cases the store is returned
    unchanged. *)
Theorem C2_withdraw_insufficient_balance_checks
    (s : store) (req : withdraw_req) (now : Z) (b : balance)
    (Hv : withdraw_invalid req = false)
    (Hb : balances s !! str (withdraw_uid req) = Some b) :
  let effective := effectiveHome (displayedUsd req) (or0 (wallet_balance_usd b)) in
  (num_ltb effective (amountUsd req) = true ->
     Server.withdraw req now s = (Err 400 "insufficient_home_balance", s)
     /\ Functions.withdraw req now s = (Err 400 "insufficient_home_balance", s)
     /\ outcome_of (Err 400 "insufficient_home_balance")
        = Failed (Some InsufficientHomeBalance))
  /\ (num_ltb effective (amountUsd req) = false ->
      num_ltb (balance_usd b) (gasUsd req) = true ->
        Server.withdraw req now s = (Err 400 "insufficient_gas_balance", s)
        /\ Functions.withdraw req now s = (Err 400 "insufficient_gas_balance", s)
        /\ outcome_of (Err 400 "insufficient_gas_balance")
           = Failed (Some InsufficientGasBalance)).
Proof.
  intros effective. subst effective.
  rewrite Server_withdraw_eq, Functions_withdraw_eq. unfold withdraw_result.
  rewrite Hv, Hb. split.
  - intros ->. repeat split; reflexivity.
  - intros -> Hgas. apply num_ltb_or0 in Hgas. rewrite Hgas. repeat split; reflexivity.
Qed.

Lemma C2_withdraw_insufficient_balance_checks_witness :
  Server.withdraw c2_req 1 c2_store = (Err 400 "insufficient_home_balance", c2_store)
  /\ Server.withdraw c2_gas_req 1 c2_store = (Err 400 "insufficient_gas_balance", c2_store).
Proof.
  split.
  - apply (C2_withdraw_insufficient_balance_checks c2_store c2_req 1
             (mkBalance "uid_a" (nz 0) (nz 0) 0) eq_refl eq_refl). reflexivity.
  - apply (C2_withdraw_insufficient_balance_checks c2_store c2_gas_req 1
             (mkBalance "uid_a" (nz 0) (nz 0) 0) eq_refl eq_refl); reflexivity.
Defined.

(** With both balances short, [balance_usd < gas] holds and yet the
    answer is not [insufficient_gas_balance]: the home check comes
    first. *)
Lemma C2_gas_check_shadowed :
  ~ (forall b,
       balances c2_store !! str (withdraw_uid c2_req) = Some b ->
       num_ltb (balance_usd b) (gasUsd c2_req) = true ->
       outcome_of (Server.withdraw c2_req 1 c2_store).1
       = Failed (Some InsufficientGasBalance)).
Proof.
  intros Hclaim.
  specialize (Hclaim (mkBalance "uid_a" (nz 0) (nz 0) 0) eq_refl eq_refl).
  vm_compute in Hclaim. discriminate.
Qed.





Lemma truthy_Some (x : string) : x <> "" -> truthy (Some x) = true.
Proof.
  intros Hne. unfold truthy. destruct (String.eqb x "") eqn:E; [|reflexivity].
  apply String.eqb_eq in E. contradiction.
Qed.

(** C4. On a balance of [wallet_balance_usd = 100] and [balance_usd = 10],
    a withdrawal of [amount = 30], [gas = 5] whose [displayedUsd] is not
    a finite number above 100 succeeds on both servers, leaves
    [wallet_balance_usd = 70] and [balance_usd = 5], and appends exactly
    the two entries [{-30, "withdraw"}] and [{-5, "gas_fee"}]. *)
Theorem C4_withdraw_30_gas_5
    (s : store) (req : withdraw_req) (now : Z) (uid : string) (b : balance)
    (Huid : withdraw_uid req = Some uid)
    (Hne : uid <> "")
    (Hb : balances s !! uid = Some b)
    (Hhome : wallet_balance_usd b = nz 100)
    (Hgas : balance_usd b = nz 10)
    (Hamount : amountUsd req = nz 30)
    (Hg : gasUsd req = nz 5)
    (Hdisplayed : isFinite (displayedUsd req) && num_gtb (displayedUsd req) (nz 100) = false) :
  let s' :=
    {| users := users s; user_auth := user_auth s;
       balances := <[uid := mkBalance (balance_uid b) (nz 5) (nz 70) now]> (balances s);
       deposits := (deposits s
                    ++ [mkDeposit (next_id s) uid (nz (-30)) (Some "withdraw") now;
                        mkDeposit (next_id s + 1) uid (nz (-5)) (Some "gas_fee") now])%list;
       stocks := stocks s |} in
  let r := OkProfile (Some (mkProfile (users s !! uid) (nz 5) (nz 70))) in
  Server.withdraw req now s = (r, s') /\ Functions.withdraw req now s = (r, s').
Proof.
  intros s' r. subst s' r.
  rewrite Server_withdraw_eq, Functions_withdraw_eq.
  assert (Hres : withdraw_result req now s =
    (OkProfile (Some (mkProfile (users s !! uid) (nz 5) (nz 70))),
     {| users := users s; user_auth := user_auth s;
        balances := <[uid := mkBalance (balance_uid b) (nz 5) (nz 70) now]> (balances s);
        deposits := (deposits s
                     ++ [mkDeposit (next_id s) uid (nz (-30)) (Some "withdraw") now;
                         mkDeposit (next_id s + 1) uid (nz (-5)) (Some "gas_fee") now])%list;
        stocks := stocks s |})); [|split; exact Hres].
  assert (Heff : effectiveHome (displayedUsd req) (nz 100) = nz 100)
    by (unfold effectiveHome; now rewrite Hdisplayed).
  unfold withdraw_result, withdraw_invalid, withdrawn, withdraw_entries.
  rewrite Huid, Hamount, Hg, (truthy_Some _ Hne).
  change (str (Some uid)) with uid.
  change (isFinite (nz 30)) with true. change (isFinite (nz 5)) with true.
  replace (num_leb (nz 30) (nz 0)) with false by reflexivity.
  replace (num_ltb (nz 5) (nz 0)) with false by reflexivity.
  cbn [negb orb]. rewrite Hb, Hhome, Hgas.
  replace (or0 (nz 100)) with (nz 100) by reflexivity.
  replace (or0 (nz 10)) with (nz 10) by reflexivity.
  rewrite Heff.
  replace (num_ltb (nz 100) (nz 30)) with false by reflexivity.
  replace (num_ltb (nz 10) (nz 5)) with false by reflexivity.
  replace (num_gtb (nz 100) (nz 100)) with false by reflexivity.
  replace (num_gtb (nz 5) (nz 0)) with true by reflexivity.
  unfold apply_patch, apply_field.
  cbn [balance_uid balance_usd wallet_balance_usd updated_at
       patch_balance_usd patch_wallet_balance_usd patch_updated_at].
  rewrite Hhome, Hgas. reflexivity.
Qed.

Lemma C4_withdraw_30_gas_5_witness :
  balances (Server.withdraw c4_req 9 c4_store).2 !! "uid_a"
    = Some (mkBalance "uid_a" (nz 5) (nz 70) 9)
  /\ deposits (Server.withdraw c4_req 9 c4_store).2
     = [mkDeposit 1 "uid_a" (nz (-30)) (Some "withdraw") 9;
        mkDeposit 2 "uid_a" (nz (-5)) (Some "gas_fee") 9].
Proof.
  destruct (C4_withdraw_30_gas_5 c4_store c4_req 9 "uid_a"
              (mkBalance "uid_a" (nz 10) (nz 100) 0)
              eq_refl ltac:(discriminate) eq_refl eq_refl eq_refl eq_refl eq_refl eq_refl)
    as [HS _].
  rewrite HS. split; reflexivity.
Defined.

(** ** Signup and login *)

Section FindRow.
Context {A : Type}.

Lemma find_row_Some (P : A -> bool) (m : gmap string A) (a : A) :
  find_row P m = Some a -> exists k, m !! k = Some a /\ P a = true.
Proof.
  unfold find_row. destruct (List.find _ _) as [[k a']|] eqn:E; [|discriminate].
  intros [= <-]. apply List.find_some in E as [Hin HP].
  exists k. split; [|exact HP].
  apply elem_of_map_to_list, list_elem_of_In. exact Hin.
Qed.

Lemma find_row_None (P : A -> bool) (m : gmap string A) :
  find_row P m = None -> forall k a, m !! k = Some a -> P a = false.
Proof.
  unfold find_row. destruct (List.find _ _) as [kv|] eqn:E; [discriminate|].
  intros _ k a Hka.
  apply (List.find_none _ _ E (k, a)).
  apply list_elem_of_In, elem_of_map_to_list. exact Hka.
Qed.

Lemma find_row_is_Some (P : A -> bool) (m : gmap string A) (k : string) (a : A) :
  m !! k = Some a -> P a = true -> is_Some (find_row P m).
Proof.
  intros Hka HP. destruct (find_row P m) as [a'|] eqn:E; [eauto|].
  rewrite (find_row_None _ _ E _ _ Hka) in HP. discriminate.
Qed.

(** After an insert at [k] of a matching row into a table without a
    matching row, the query finds exactly the inserted row. *)
Lemma find_row_insert_fresh (P : A -> bool) (m : gmap string A) (k : string) (a : A) :
  find_row P m = None -> P a = true -> find_row P (<[k := a]> m) = Some a.
Proof.
  intros Hnone HP.
  destruct (find_row_is_Some P (<[k := a]> m) k a (lookup_insert_eq _ _ _) HP)
    as [a' Ha'].
  rewrite Ha'. f_equal.
  destruct (find_row_Some _ _ _ Ha') as (k' & Hk' & HP').
  destruct (decide (k = k')) as [<-|Hne].
  - rewrite lookup_insert_eq in Hk'. congruence.
  - rewrite lookup_insert_ne in Hk' by exact Hne.
    rewrite (find_row_None _ _ Hnone _ _ Hk') in HP'. discriminate.
Qed.

End FindRow.

Section SignupLogin.
Context `{Env}.

(** C5. A signup whose email is missing, whose password is missing, or
    whose password has fewer than 6 characters is answered with status
    400 and an [InvalidInput] error by both servers, and the store (users,
    credentials, balances, ledger) is returned unchanged. *)
Theorem C5_signup_invalid_input
    (s : store) (req : signup_req) (fresh : string) (now : Z)
    (Hbad : signup_email req = None
            \/ signup_password req = None
            \/ exists p, signup_password req = Some p /\ (String.length p < 6)%nat) :
  Server.signup req fresh now s = (Err 400 "invalid_input", s)
  /\ outcome_of (Err 400 "invalid_input") = Failed (Some InvalidInput)
  /\ Functions.signup req fresh now s
     = (Err 400 "email_and_password_required_min_6_chars", s)
  /\ outcome_of (Err 400 "email_and_password_required_min_6_chars")
     = Failed (Some InvalidInput).
Proof.
  assert (Hcond : negb (truthy (signup_email req)) || negb (truthy (signup_password req))
                  || (String.length (str (signup_password req)) <? 6)%nat = true).
  { destruct Hbad as [He|[Hp|(p & Hp & Hlen)]].
    - rewrite He. reflexivity.
    - rewrite Hp. apply orb_true_iff. left. apply orb_true_r.
    - rewrite Hp. apply orb_true_iff. right. apply Nat.ltb_lt. exact Hlen. }
  unfold Server.signup, Functions.signup, try_catch. rewrite Hcond.
  repeat split; reflexivity.
Qed.

End SignupLogin.

Lemma C5_signup_invalid_input_witness :
  Server.signup (H := sample_env) (mkSignupReq (Some "a@b.c") None (Some "12345")) "k3" 5
                empty_store
  = (Err 400 "invalid_input", empty_store).
Proof.
  apply (C5_signup_invalid_input (H := sample_env) empty_store
           (mkSignupReq (Some "a@b.c") None (Some "12345")) "k3" 5).
  right. right. exists "12345". split; [reflexivity | simpl; lia].
Defined.

Section SignupThenLogin.
Context `{Env}.

Lemma Server_getUserProfile_pure (uid : string) (s : store) :
  exists p, Server.getUserProfile uid s = (Done p, s)
            /\ (forall u, users s !! uid = Some u ->
                exists p', p = Some p' /\ profile_user p' = Some u).
Proof.
  unfold Server.getUserProfile, Server.getBalance, bind, gets, ret.
  destruct (users s !! uid) as [u|]; eexists; (split; [reflexivity|]).
  - intros u' [= <-]. eexists. split; reflexivity.
  - intros u' [=].
Qed.

Lemma Server_signup_ok (req : signup_req) (fresh : string) (now : Z)
      (s : store) (r : response) (s' : store) :
  Server.signup req fresh now s = (r, s') ->
  is_ok r = true ->
  let uid := ("uid_" ++ fresh)%string in
  truthy (signup_email req) = true
  /\ truthy (signup_password req) = true
  /\ (exists t, user_auth s'
                = <[uid := mkAuth uid (str (signup_email req))
                                  (sha256_hex (str (signup_password req))) t]> (user_auth s))
  /\ find_row (email_is (str (signup_email req))) (user_auth s) = None
  /\ (exists u, users s' !! uid = Some u /\ user_uid u = uid)
  /\ (exists p, Server.getUserProfile uid s' = (Done p, s') /\ r = OkProfile p).
Proof.
  intros Hrun Hok uid. unfold Server.signup, try_catch in Hrun.
  destruct (negb (truthy (signup_email req)) || negb (truthy (signup_password req))
            || (String.length (str (signup_password req)) <? 6)%nat) eqn:Hcond;
    [inversion Hrun; subst; discriminate|].
  apply orb_false_elim in Hcond as [Hcond _].
  apply orb_false_elim in Hcond as [He Hp].
  apply negb_false_iff in He, Hp.
  unfold bind at 1 in Hrun. unfold Server.findAuthByEmail, gets in Hrun.
  fold (email_is (str (signup_email req))) in Hrun.
  destruct (find_row (email_is (str (signup_email req))) (user_auth s)) as [a|] eqn:Hfind;
    [inversion Hrun; subst; discriminate|].
  rewrite bool_decide_eq_false_2 in Hrun by apply is_Some_None.
  unfold Server.createUserRecord, Server.createAuthRecord, Server.upsertBalance,
    Server.addDeposit, Server.hashPassword, bind, modify in Hrun.
  fold uid in Hrun.
  match type of Hrun with
  | context [Server.getUserProfile uid ?st] =>
      destruct (Server_getUserProfile_pure uid st) as (p & Hp' & Huser);
      rewrite Hp' in Hrun; set (final := st) in *
  end.
  unfold ret in Hrun. injection Hrun as <- <-.
  repeat split; try assumption.
  - unfold final, set_user_auth, set_users, set_balances, set_deposits.
    cbn [users user_auth balances deposits stocks].
    destruct (user_auth s !! uid); eexists; reflexivity.
  - unfold final, set_user_auth, set_users, set_balances, set_deposits.
    cbn [users user_auth balances deposits stocks].
    destruct (users s !! uid); eexists; (split; [apply lookup_insert_eq | reflexivity]).
  - exists p. split; [exact Hp' | reflexivity].
Qed.

Lemma Functions_signup_ok (req : signup_req) (fresh : string) (now : Z)
      (s : store) (r : response) (s' : store) :
  Functions.signup req fresh now s = (r, s') ->
  is_ok r = true ->
  let uid := ("uid_" ++ fresh)%string in
  truthy (signup_email req) = true
  /\ truthy (signup_password req) = true
  /\ (exists t, user_auth s'
                = <[uid := mkAuth uid (str (signup_email req))
                                  (sha256_hex (str (signup_password req))) t]> (user_auth s))
  /\ find_row (email_is (str (signup_email req))) (user_auth s) = None
  /\ (exists u, users s' !! uid = Some u /\ user_uid u = uid)
  /\ r = OkProfile (Some (Functions.inline_profile (users s' !! uid)
                            (default Functions.zero_balance (balances s' !! uid)))).
Proof.
  intros Hrun Hok uid. unfold Functions.signup, try_catch in Hrun.
  destruct (negb (truthy (signup_email req)) || negb (truthy (signup_password req))
            || (String.length (str (signup_password req)) <? 6)%nat) eqn:Hcond;
    [inversion Hrun; subst; discriminate|].
  apply orb_false_elim in Hcond as [Hcond _].
  apply orb_false_elim in Hcond as [He Hp].
  apply negb_false_iff in He, Hp.
  unfold bind at 1 in Hrun. unfold Functions.user_auth_where_email, gets in Hrun.
  fold (email_is (str (signup_email req))) in Hrun.
  destruct (find_row (email_is (str (signup_email req))) (user_auth s)) as [a|] eqn:Hfind;
    [inversion Hrun; subst; discriminate|].
  rewrite bool_decide_eq_false_2 in Hrun by apply is_Some_None.
  unfold Functions.users_doc_set, Functions.user_auth_doc_set, Functions.balances_doc_set,
    Functions.deposits_add, Functions.users_doc_get, Functions.balances_doc_get,
    Functions.hashPassword, bind, modify, gets, ret in Hrun.
  fold uid in Hrun. injection Hrun as <- <-.
  unfold set_user_auth, set_users, set_balances, set_deposits.
  cbn [users user_auth balances deposits stocks].
  repeat split; try assumption.
  - eexists; reflexivity.
  - eexists. split; [apply lookup_insert_eq | reflexivity].
Qed.

Lemma Server_login_found (req : login_req) (s : store) (a : auth) (p : option profile) :
  truthy (login_email req) = true ->
  truthy (login_password req) = true ->
  find_row (email_is (str (login_email req))) (user_auth s) = Some a ->
  password_hash a = sha256_hex (str (login_password req)) ->
  Server.getUserProfile (auth_uid a) s = (Done p, s) ->
  Server.login req s = (OkProfile p, s).
Proof.
  intros He Hp Hfind Hhash Hprofile.
  unfold Server.login, try_catch. rewrite He, Hp. cbn [negb orb].
  unfold bind at 1. unfold Server.findAuthByEmail, gets.
  fold (email_is (str (login_email req))). rewrite Hfind.
  unfold Server.hashPassword. rewrite Hhash, String.eqb_refl. cbn [negb].
  unfold bind. rewrite Hprofile. reflexivity.
Qed.

Lemma Functions_login_found (req : login_req) (s : store) (a : auth) :
  truthy (login_email req) = true ->
  truthy (login_password req) = true ->
  find_row (email_is (str (login_email req))) (user_auth s) = Some a ->
  password_hash a = sha256_hex (str (login_password req)) ->
  Functions.login req s
  = (OkProfile (Some (Functions.inline_profile (users s !! auth_uid a)
                        (default Functions.zero_balance (balances s !! auth_uid a)))), s).
Proof.
  intros He Hp Hfind Hhash.
  unfold Functions.login, try_catch. rewrite He, Hp. cbn [negb orb].
  unfold bind at 1. unfold Functions.user_auth_where_email, gets.
  fold (email_is (str (login_email req))). rewrite Hfind.
  unfold Functions.hashPassword. rewrite Hhash, String.eqb_refl. cbn [negb].
  reflexivity.
Qed.

Lemma email_is_refl (email hash uid : string) (t : Z) :
  email_is email (mkAuth uid email hash t) = true.
Proof. unfold email_is. apply String.eqb_refl. Qed.

(** C9. When a signup succeeds, a login with the same email and password
    on the resulting store succeeds with the very same response, on the
    relational server and on the document-store server alike; the
    profile in it carries the uid generated by the signup. *)
Theorem C9_signup_then_login_same_uid
    (s : store) (req : signup_req) (fresh : string) (now : Z)
    (r : response) (s' : store)
    (Hok : is_ok r = true) :
  (Server.signup req fresh now s = (r, s') ->
   Server.login (mkLoginReq (signup_email req) (signup_password req)) s' = (r, s')
   /\ response_uid r = Some ("uid_" ++ fresh)%string)
  /\ (Functions.signup req fresh now s = (r, s') ->
      Functions.login (mkLoginReq (signup_email req) (signup_password req)) s' = (r, s')
      /\ response_uid r = Some ("uid_" ++ fresh)%string).
Proof.
  split; intros Hrun.
  - destruct (Server_signup_ok _ _ _ _ _ _ Hrun Hok)
      as (He & Hp & (t & Hauth) & Hnone & (u & Hu & Huid) & (p & Hprofile & ->)).
    destruct (Server_getUserProfile_pure ("uid_" ++ fresh) s') as (p0 & Hp0 & Hsome).
    rewrite Hprofile in Hp0. injection Hp0 as <-.
    destruct (Hsome _ Hu) as (p' & -> & Hpu).
    split.
    + apply Server_login_found with
        (a := mkAuth ("uid_" ++ fresh) (str (signup_email req))
                     (sha256_hex (str (signup_password req))) t);
        try assumption; try reflexivity.
      cbn [login_email]. rewrite Hauth.
      apply find_row_insert_fresh; [exact Hnone | apply email_is_refl].
    + cbn [response_uid]. rewrite Hpu. cbn. now rewrite Huid.
  - destruct (Functions_signup_ok _ _ _ _ _ _ Hrun Hok)
      as (He & Hp & (t & Hauth) & Hnone & (u & Hu & Huid) & ->).
    split.
    + rewrite (Functions_login_found _ _
                 (mkAuth ("uid_" ++ fresh) (str (signup_email req))
                         (sha256_hex (str (signup_password req))) t));
        try assumption; try reflexivity.
      cbn [login_email]. rewrite Hauth.
      apply find_row_insert_fresh; [exact Hnone | apply email_is_refl].
    + cbn [response_uid Functions.inline_profile profile_user]. rewrite Hu. cbn.
      now rewrite Huid.
Qed.

End SignupThenLogin.

Lemma C9_signup_then_login_same_uid_witness :
  is_ok (Server.signup (H := sample_env) c9_req "k3x9a1b2c3d4" 5 empty_store).1 = true
  /\ Server.login (H := sample_env)
        (mkLoginReq (Some "ann@example.org") (Some "secret1"))
        (Server.signup (H := sample_env) c9_req "k3x9a1b2c3d4" 5 empty_store).2
     = Server.signup (H := sample_env) c9_req "k3x9a1b2c3d4" 5 empty_store
  /\ response_uid (Server.signup (H := sample_env) c9_req "k3x9a1b2c3d4" 5 empty_store).1
     = Some "uid_k3x9a1b2c3d4".
Proof.
  assert (Hok : is_ok (Server.signup (H := sample_env) c9_req "k3x9a1b2c3d4" 5
                         empty_store).1 = true) by reflexivity.
  split; [exact Hok|].
  destruct (C9_signup_then_login_same_uid (H := sample_env) empty_store c9_req
              "k3x9a1b2c3d4" 5
              (Server.signup (H := sample_env) c9_req "k3x9a1b2c3d4" 5 empty_store).1
              (Server.signup (H := sample_env) c9_req "k3x9a1b2c3d4" 5 empty_store).2
              Hok) as [HS _].
  destruct (HS (surjective_pairing _)) as [Hlogin Huid].
  split; [|exact Huid].
  etransitivity; [exact Hlogin|]. symmetry. apply surjective_pairing.
Defined.

(** ** The deposit feed *)

Lemma insert_desc_perm (d : deposit) (l : list deposit) :
  Permutation (insert_desc d l) (d :: l).
Proof.
  induction l as [|x l IH]; cbn [insert_desc]; [reflexivity|].
  destruct (created_at x <? created_at d); [reflexivity|].
  rewrite IH. apply perm_swap.
Qed.


Lemma order_by_created_at_desc_perm (l : list deposit) :
  Permutation (order_by_created_at_desc l) l.
Proof.
  induction l as [|x l IH]; cbn; [reflexivity|].
  rewrite insert_desc_perm. now constructor.
Qed.



Lemma like_percent (t : string) : like "%" t = true.
Proof.
  cbn [like]. replace (Ascii.eqb "%" "%") with true by reflexivity.
  induction t as [|c t IH]; [reflexivity|].
  cbn [orb]. exact IH.
Qed.

Lemma like_prefix (p t : string) :
  literal p = true -> String.prefix p t = true -> like (p ++ "%") t = true.
Proof.
  revert t. induction p as [|c p IH]; intros t Hlit Hpre.
  - apply like_percent.
  - cbn [literal] in Hlit. apply andb_true_iff in Hlit as [Hc Hlit].
    apply negb_true_iff in Hc.
    destruct t as [|d t]; [discriminate|]. cbn [String.prefix] in Hpre.
    destruct (ascii_dec c d) as [<-|]; [|discriminate].
    change (like (String c (p ++ "%")) (String c t) = true).
    cbn [like]. rewrite Hc, Ascii.eqb_refl, orb_true_r.
    cbn [andb]. now apply IH.
Qed.

Lemma feed_where_spec (uid : string) (d : deposit) :
  Server.feed_where uid d = true -> deposit_uid d = uid /\ ~ attempt_note d.
Proof.
  unfold Server.feed_where. intros Hw.
  apply andb_true_iff in Hw as [Hw Hgas]. apply andb_true_iff in Hw as [Huid Hdep].
  split; [now apply String.eqb_eq|].
  intros (n & Hn & Hpre). rewrite Hn in Hdep, Hgas. cbn [Server.not_like] in Hdep, Hgas.
  apply negb_true_iff in Hdep, Hgas.
  destruct Hpre as [Hpre|Hpre].
  - pose proof (like_prefix "deposit_attempt_" n eq_refl Hpre) as Hlike.
    change ("deposit_attempt_" ++ "%")%string with "deposit_attempt_%" in Hlike.
    congruence.
  - pose proof (like_prefix "gas_fee_attempt_" n eq_refl Hpre) as Hlike.
    change ("gas_fee_attempt_" ++ "%")%string with "gas_fee_attempt_%" in Hlike.
    congruence.
Qed.




(** ** Stock update *)

Section Stocks.
Context `{Env}.




(** On the relational server the same accepted update reaches the
    [INSERT], which names columns the [stocks] table does not have: the
    handler answers 500 and nothing is stored. *)
Lemma Server_stock_update_fails (req : stock_req) (now : Z) (s : store) :
  stock_key req = Some ADMIN_KEY ->
  stock_invalid req = false ->
  existsb (String.eqb (str (stock_direction req))) ["up"; "down"] = true ->
  Server.stocks_update_percentage req now s = (Err 500 "internal_error", s).
Proof.
  intros Hkey Hvalid Hdir.
  unfold Server.stocks_update_percentage, try_catch.
  rewrite bool_decide_eq_true_2 by exact Hkey. cbn [negb].
  unfold stock_invalid in Hvalid. rewrite Hvalid, Hdir. reflexivity.
Qed.

End Stocks.


(** ** The two servers side by side *)

Section Agreement.
Context `{Env}.








End Agreement.



(** ** States the API can reach *)

Section Reachable.
Context `{Env}.




































End Reachable.



(** * Further properties *)

(** ** Signup *)

Section SignupState.
Context `{Env}.

(** A successful signup, on either server, is the store [signed_up]. *)
Lemma Server_signup_state (req : signup_req) (fresh : string) (now : Z)
      (s : store) (r : response) (s' : store) :
  Server.signup req fresh now s = (r, s') ->
  is_ok r = true ->
  exists u a,
    s' = signed_up fresh now u a s
    /\ r = OkProfile (Some (mkProfile (Some u) (nz 0) (nz 0)))
    /\ user_uid u = ("uid_" ++ fresh)%string
    /\ user_email u = signup_email req
    /\ auth_email a = str (signup_email req)
    /\ password_hash a = sha256_hex (str (signup_password req))
    /\ signup_invalid req = false
    /\ find_row (email_is (str (signup_email req))) (user_auth s) = None
    /\ auth_uid a = ("uid_" ++ fresh)%string.
Proof.
  intros Hrun Hok. unfold Server.signup, try_catch in Hrun.
  fold (signup_invalid req) in Hrun.
  destruct (signup_invalid req) eqn:Hv; [inversion Hrun; subst; discriminate|].
  unfold Server.findAuthByEmail, Server.createUserRecord, Server.createAuthRecord,
    Server.upsertBalance, Server.addDeposit, Server.getUserProfile, Server.getBalance,
    Server.hashPassword, bind, modify, gets, ret, set_users, set_user_auth,
    set_balances, set_deposits in Hrun.
  fold (email_is (str (signup_email req))) in Hrun.
  destruct (find_row (email_is (str (signup_email req))) (user_auth s)) eqn:Hfind.
  { rewrite bool_decide_eq_true_2 in Hrun by eauto. inversion Hrun; subst; discriminate. }
  rewrite bool_decide_eq_false_2 in Hrun by apply is_Some_None.
  destruct (users s !! ("uid_" ++ fresh)%string) as [u0|] eqn:Hu,
           (user_auth s !! ("uid_" ++ fresh)%string) as [a0|] eqn:Ha;
    repeat first [ progress cbn [users user_auth balances deposits stocks fst snd] in Hrun
                 | rewrite Hu in Hrun | rewrite Ha in Hrun
                 | rewrite lookup_insert_eq in Hrun ];
    injection Hrun as <- <-;
    eexists _, _; (split; [reflexivity|]); repeat split.
Qed.

Lemma Functions_signup_state (req : signup_req) (fresh : string) (now : Z)
      (s : store) (r : response) (s' : store) :
  Functions.signup req fresh now s = (r, s') ->
  is_ok r = true ->
  exists u a,
    s' = signed_up fresh now u a s
    /\ r = OkProfile (Some (mkProfile (Some u) (nz 0) (nz 0)))
    /\ user_uid u = ("uid_" ++ fresh)%string
    /\ user_email u = signup_email req
    /\ auth_email a = str (signup_email req)
    /\ password_hash a = sha256_hex (str (signup_password req))
    /\ signup_invalid req = false
    /\ find_row (email_is (str (signup_email req))) (user_auth s) = None
    /\ auth_uid a = ("uid_" ++ fresh)%string.
Proof.
  intros Hrun Hok. unfold Functions.signup, try_catch in Hrun.
  fold (signup_invalid req) in Hrun.
  destruct (signup_invalid req) eqn:Hv; [inversion Hrun; subst; discriminate|].
  unfold Functions.user_auth_where_email, Functions.users_doc_set,
    Functions.user_auth_doc_set, Functions.balances_doc_set, Functions.deposits_add,
    Functions.users_doc_get, Functions.balances_doc_get, Functions.hashPassword,
    Functions.inline_profile, bind, modify, gets, ret, set_users, set_user_auth,
    set_balances, set_deposits in Hrun.
  fold (email_is (str (signup_email req))) in Hrun.
  destruct (find_row (email_is (str (signup_email req))) (user_auth s)) eqn:Hfind.
  { rewrite bool_decide_eq_true_2 in Hrun by eauto. inversion Hrun; subst; discriminate. }
  rewrite bool_decide_eq_false_2 in Hrun by apply is_Some_None.
  repeat first [ progress cbn [users user_auth balances deposits stocks fst snd] in Hrun
               | rewrite lookup_insert_eq in Hrun ].
  injection Hrun as <- <-.
  eexists _, _; (split; [reflexivity|]); repeat split.
Qed.

End SignupState.

(** ** Admin credits in closed form *)

Section Credits.
Context `{Env}.




End Credits.

(** ** Failed requests *)

Section Failures.
Context `{Env}.

Lemma Server_signup_error (req : signup_req) (fresh : string) (now : Z) (s : store) :
  is_ok (Server.signup req fresh now s).1 = false -> (Server.signup req fresh now s).2 = s.
Proof.
  unfold Server.signup, try_catch.
  destruct (negb (truthy (signup_email req)) || negb (truthy (signup_password req))
            || (String.length (str (signup_password req)) <? 6)%nat); [reflexivity|].
  unfold Server.findAuthByEmail, Server.createUserRecord, Server.createAuthRecord,
    Server.upsertBalance, Server.addDeposit, Server.getUserProfile, Server.getBalance,
    bind, modify, gets, ret.
  destruct (bool_decide (is_Some (find_row _ (user_auth s)))); [reflexivity|].
  cbn [set_users set_user_auth set_balances set_deposits users].
  destruct (users s !! ("uid_" ++ fresh)%string);
    rewrite lookup_insert_eq; discriminate.
Qed.

Lemma Functions_signup_error (req : signup_req) (fresh : string) (now : Z) (s : store) :
  is_ok (Functions.signup req fresh now s).1 = false ->
  (Functions.signup req fresh now s).2 = s.
Proof.
  unfold Functions.signup, try_catch.
  destruct (negb (truthy (signup_email req)) || negb (truthy (signup_password req))
            || (String.length (str (signup_password req)) <? 6)%nat); [reflexivity|].
  unfold Functions.user_auth_where_email, bind, gets, ret.
  destruct (bool_decide (is_Some (find_row _ (user_auth s)))); [reflexivity|].
  discriminate.
Qed.










End Failures.


Section SignupFacts.
Context `{Env}.

(** X2. A successful signup, on either server, leaves the new uid with
    a balance document of 0 and 0, appends to the ledger exactly one
    entry, of amount 0 and note ["default"], stores the SHA-256 hash of
    the password as [password_hash], leaves every other user, credential
    and balance as it was, and answers with a profile whose two balances
    are 0. *)
Theorem signup_initial_state
    (s : store) (req : signup_req) (fresh : string) (now : Z)
    (r : response) (s' : store)
    (Hrun : Server.signup req fresh now s = (r, s')
            \/ Functions.signup req fresh now s = (r, s'))
    (Hok : is_ok r = true) :
  let uid := ("uid_" ++ fresh)%string in
  balances s' !! uid = Some (mkBalance uid (nz 0) (nz 0) now)
  /\ deposits s' = (deposits s ++ [mkDeposit (next_id s) uid (nz 0) (Some "default") now])%list
  /\ (exists a, user_auth s' !! uid = Some a
                /\ auth_email a = str (signup_email req)
                /\ password_hash a = sha256_hex (str (signup_password req)))
  /\ (exists u, users s' !! uid = Some u
                /\ user_email u = signup_email req
                /\ r = OkProfile (Some (mkProfile (Some u) (nz 0) (nz 0))))
  /\ stocks s' = stocks s
  /\ (forall k, k <> uid -> balances s' !! k = balances s !! k
                            /\ users s' !! k = users s !! k
                            /\ user_auth s' !! k = user_auth s !! k).
Proof.
  intros uid.
  assert (Hstate : exists u a,
             s' = signed_up fresh now u a s
             /\ r = OkProfile (Some (mkProfile (Some u) (nz 0) (nz 0)))
             /\ user_uid u = uid /\ user_email u = signup_email req
             /\ auth_email a = str (signup_email req)
             /\ password_hash a = sha256_hex (str (signup_password req))
             /\ signup_invalid req = false
             /\ find_row (email_is (str (signup_email req))) (user_auth s) = None
             /\ auth_uid a = uid).
  { destruct Hrun as [Hrun|Hrun];
      [eapply Server_signup_state | eapply Functions_signup_state]; eassumption. }
  destruct Hstate as (u & a & -> & -> & Hu & Hemail & Haemail & Hhash & _ & _).
  unfold signed_up. cbn [users user_auth balances deposits stocks]. fold uid.
  split; [apply lookup_insert_eq|]. split; [reflexivity|].
  split; [exists a; rewrite lookup_insert_eq; auto|].
  split; [exists u; rewrite lookup_insert_eq; auto|].
  split; [reflexivity|].
  intros k Hk. rewrite !lookup_insert_ne by congruence. auto.
Qed.

(** X3. After a successful signup, a second signup with the same email
    and an acceptable password is refused on the same server, with
    [email_exists] (409) on the relational one and
    [email_already_registered] (400) on the document-store one, and the
    store stays as the first signup left it. *)
Theorem signup_same_email_refused
    (s : store) (req req2 : signup_req) (fresh fresh2 : string) (now now2 : Z)
    (r : response) (s' : store)
    (Hok : is_ok r = true)
    (Hsame : signup_email req2 = signup_email req)
    (Hvalid : signup_invalid req2 = false) :
  (Server.signup req fresh now s = (r, s') ->
   Server.signup req2 fresh2 now2 s' = (Err 409 "email_exists", s'))
  /\ (Functions.signup req fresh now s = (r, s') ->
      Functions.signup req2 fresh2 now2 s' = (Err 400 "email_already_registered", s')).
Proof.
  assert (Hfound : forall u a,
             auth_email a = str (signup_email req) ->
             is_Some (find_row (email_is (str (signup_email req2)))
                               (user_auth (signed_up fresh now u a s)))).
  { intros u a Ha. rewrite Hsame. unfold signed_up. cbn [user_auth].
    eapply find_row_is_Some; [apply lookup_insert_eq|].
    unfold email_is. rewrite Ha. apply String.eqb_refl. }
  split; intros Hrun.
  - destruct (Server_signup_state _ _ _ _ _ _ Hrun Hok)
      as (u & a & -> & _ & _ & _ & Ha & _).
    unfold Server.signup, try_catch. fold (signup_invalid req2). rewrite Hvalid.
    unfold Server.findAuthByEmail, bind, gets, ret.
    fold (email_is (str (signup_email req2))).
    now rewrite bool_decide_eq_true_2 by (apply Hfound; exact Ha).
  - destruct (Functions_signup_state _ _ _ _ _ _ Hrun Hok)
      as (u & a & -> & _ & _ & _ & Ha & _).
    unfold Functions.signup, try_catch. fold (signup_invalid req2). rewrite Hvalid.
    unfold Functions.user_auth_where_email, bind, gets, ret.
    fold (email_is (str (signup_email req2))).
    now rewrite bool_decide_eq_true_2 by (apply Hfound; exact Ha).
Qed.

End SignupFacts.

Lemma signup_initial_state_witness :
  balances c10_store !! "uid_k3x9a1b2c3d4"
  = Some (mkBalance "uid_k3x9a1b2c3d4" (nz 0) (nz 0) 5)
  /\ deposits c10_store = [mkDeposit 1 "uid_k3x9a1b2c3d4" (nz 0) (Some "default") 5].
Proof.
  destruct (signup_initial_state (H := sample_env) empty_store c9_req "k3x9a1b2c3d4" 5
              (Functions.signup (H := sample_env) c9_req "k3x9a1b2c3d4" 5 empty_store).1
              c10_store (or_intror (surjective_pairing _)) eq_refl)
    as (Hbal & Hdep & _).
  split; [exact Hbal | exact Hdep].
Defined.

Lemma signup_same_email_refused_witness :
  Functions.signup (H := sample_env)
    (mkSignupReq (Some "ann@example.org") None (Some "another-secret")) "zzz" 8 c10_store
  = (Err 400 "email_already_registered", c10_store).
Proof.
  destruct (signup_same_email_refused (H := sample_env) empty_store c9_req
              (mkSignupReq (Some "ann@example.org") None (Some "another-secret"))
              "k3x9a1b2c3d4" "zzz" 5 8
              (Functions.signup (H := sample_env) c9_req "k3x9a1b2c3d4" 5 empty_store).1
              c10_store eq_refl eq_refl eq_refl) as [_ HF].
  apply HF. apply surjective_pairing.
Defined.

(** ** Admin credits *)

Section CreditFacts.
Context `{Env}.




(** X6. Without the admin key (a missing or different [x-admin-key]
    header) every admin handler answers 401 [unauthorized] and returns the
    store, or the percentage table, unchanged: the two credits, the stock
    update, the user listing, the admin deposit listing and the percentage
    update. *)
Theorem admin_key_required (key : option string) (s : store) (now : Z)
    (Hkey : key <> Some ADMIN_KEY) :
  (forall req, manual_key req = key ->
     Server.deposits_manual req now s = (Err 401 "unauthorized", s)
     /\ Server.deposits_manual_home req now s = (Err 401 "unauthorized", s)
     /\ Functions.deposits_manual req now s = (Err 401 "unauthorized", s))
  /\ (forall req, stock_key req = key ->
        Server.stocks_update_percentage req now s = (Err 401 "unauthorized", s)
        /\ Functions.stocks_update_percentage req now s = (Err 401 "unauthorized", s))
  /\ ServerMore.list_users key s = (RErr 401 "unauthorized", s)
  /\ FunctionsMore.list_users key s = (RErr 401 "unauthorized", s)
  /\ (forall uid, ServerMore.list_deposits_admin key uid s = (Err 401 "unauthorized", s))
  /\ (forall req t, percentage_key req = key ->
        ServerMore.percentage_update req now s t = (RErr 401 "unauthorized", t)
        /\ FunctionsMore.percentage_update req now s t = (RErr 401 "unauthorized", t)).
Proof.
  repeat split; intros;
    unfold Server.deposits_manual, Server.deposits_manual_home, Functions.deposits_manual,
      Server.stocks_update_percentage, Functions.stocks_update_percentage,
      ServerMore.list_users, FunctionsMore.list_users, ServerMore.list_deposits_admin,
      ServerMore.percentage_update, FunctionsMore.percentage_update,
      try_catch, try_catch_reply;
    rewrite bool_decide_eq_false_2 by congruence; reflexivity.
Qed.

End CreditFacts.



Lemma admin_key_required_witness :
  Server.deposits_manual (H := sample_env)
    (mkManualReq (Some "guess") (Some "uid_k3x9a1b2c3d4") (nz 50) None) 6 c10_store
  = (Err 401 "unauthorized", c10_store).
Proof.
  destruct (admin_key_required (H := sample_env) (Some "guess") c10_store 6
              ltac:(discriminate)) as (Hmanual & _).
  apply (Hmanual (mkManualReq (Some "guess") (Some "uid_k3x9a1b2c3d4") (nz 50) None)
                 eq_refl).
Defined.

(** ** More on withdraw *)

Lemma withdraw_result_ok_state (req : withdraw_req) (now : Z) (s : store)
      (r : response) (s' : store) :
  withdraw_result req now s = (r, s') ->
  is_ok r = true ->
  exists b,
    balances s !! str (withdraw_uid req) = Some b
    /\ s' = {| users := users s; user_auth := user_auth s;
               balances := <[str (withdraw_uid req) := withdrawn req now b]> (balances s);
               deposits := (deposits s
                            ++ withdraw_entries req now (str (withdraw_uid req))
                                 (next_id s))%list;
               stocks := stocks s |}.
Proof.
  unfold withdraw_result. intros Hrun Hok.
  destruct (withdraw_invalid req); [inversion Hrun; subst; discriminate|].
  destruct (balances s !! str (withdraw_uid req)) as [b|];
    [|inversion Hrun; subst; discriminate].
  exists b.
  destruct (num_ltb _ (amountUsd req)); [inversion Hrun; subst; discriminate|].
  destruct (num_ltb _ (gasUsd req)); [inversion Hrun; subst; discriminate|].
  inversion Hrun; subst. split; reflexivity.
Qed.

(** X7. A successful withdrawal, on either server, changes the balance
    document of the requesting uid only and leaves users, credentials and
    stocks as they were.  It appends one ledger entry
    [{-amount, "withdraw"}] and, only when [gas > 0], a second one
    [{-gas, "gas_fee"}]; with [gas = 0] the stored [balance_usd] is written
    back unchanged, otherwise it is lowered by [gas]. *)
Theorem withdraw_touches_one_balance
    (s : store) (req : withdraw_req) (now : Z) (r : response) (s' : store)
    (Hrun : Server.withdraw req now s = (r, s') \/ Functions.withdraw req now s = (r, s'))
    (Hok : is_ok r = true) :
  let uid := str (withdraw_uid req) in
  users s' = users s /\ user_auth s' = user_auth s /\ stocks s' = stocks s
  /\ (forall k, k <> uid -> balances s' !! k = balances s !! k)
  /\ deposits s'
     = (deposits s
        ++ mkDeposit (next_id s) uid (num_opp (amountUsd req)) (Some "withdraw") now
           :: (if num_gtb (gasUsd req) (nz 0)
               then [mkDeposit (next_id s + 1) uid (num_opp (gasUsd req))
                               (Some "gas_fee") now]
               else []))%list
  /\ (exists b b',
        balances s !! uid = Some b /\ balances s' !! uid = Some b'
        /\ updated_at b' = now
        /\ balance_usd b' = if num_gtb (gasUsd req) (nz 0)
                            then num_sub (balance_usd b) (gasUsd req)
                            else balance_usd b).
Proof.
  intros uid. subst uid.
  assert (Hres : withdraw_result req now s = (r, s')).
  { destruct Hrun as [Hrun|Hrun];
      [rewrite <- Server_withdraw_eq | rewrite <- Functions_withdraw_eq]; exact Hrun. }
  destruct (withdraw_result_ok_state _ _ _ _ _ Hres Hok) as (b & Hb & ->).
  cbn [users user_auth balances deposits stocks].
  repeat (split; [reflexivity|]).
  split; [intros k Hk; now rewrite lookup_insert_ne by congruence|].
  split; [reflexivity|].
  exists b, (withdrawn req now b). split; [exact Hb|].
  split; [apply lookup_insert_eq|].
  unfold withdrawn.
  cbn [apply_patch apply_field balance_usd updated_at patch_balance_usd patch_updated_at
       default from_option id].
  split; [reflexivity|].
  assert (Hsame : forall c p, balance_usd (if c : bool then apply_patch
                     (mkPatch None p (Some now)) b else b) = balance_usd b)
    by (intros [|] p; reflexivity).
  destruct (num_gtb (gasUsd req) (nz 0)); cbn [apply_field]; [|reflexivity].
  now rewrite Hsame.
Qed.

Lemma withdraw_touches_one_balance_witness :
  deposits (Server.withdraw c1_req 1 c1_store).2
  = [mkDeposit 1 "uid_a" (num_opp (nz 110)) (Some "withdraw") 1].
Proof.
  destruct (withdraw_touches_one_balance c1_store c1_req 1
              (Server.withdraw c1_req 1 c1_store).1 (Server.withdraw c1_req 1 c1_store).2
              (or_introl (surjective_pairing _)) eq_refl)
    as (_ & _ & _ & _ & Hdep & _).
  exact Hdep.
Defined.

(** X8. A [displayedUsd] that is missing, not finite, or not above the
    stored home balance has no effect at all: on both servers the request
    gives the same response and the same store as the request without
    [displayedUsd]. *)
Theorem withdraw_ignores_displayed_not_above
    (s : store) (req : withdraw_req) (now : Z) (b : balance)
    (Hb : balances s !! str (withdraw_uid req) = Some b)
    (Hnot : isFinite (displayedUsd req)
            && num_gtb (displayedUsd req) (or0 (wallet_balance_usd b)) = false) :
  Server.withdraw req now s = Server.withdraw (without_displayed req) now s
  /\ Functions.withdraw req now s = Functions.withdraw (without_displayed req) now s.
Proof.
  rewrite !Server_withdraw_eq, !Functions_withdraw_eq.
  assert (Heq : withdraw_result req now s = withdraw_result (without_displayed req) now s);
    [|split; exact Heq].
  unfold withdraw_result, withdraw_invalid, withdrawn, withdraw_entries, without_displayed.
  cbn [withdraw_uid amountUsd gasUsd displayedUsd]. rewrite Hb.
  unfold effectiveHome. rewrite Hnot. cbn [isFinite andb]. reflexivity.
Qed.

Lemma withdraw_ignores_displayed_not_above_witness :
  Server.withdraw (mkWithdrawReq (Some "uid_a") (nz 30) (nz 5) (nz 80)) 9 c4_store
  = Server.withdraw c4_req 9 c4_store.
Proof.
  apply (withdraw_ignores_displayed_not_above c4_store
           (mkWithdrawReq (Some "uid_a") (nz 30) (nz 5) (nz 80)) 9
           (mkBalance "uid_a" (nz 10) (nz 100) 0) eq_refl eq_refl).
Defined.

(** ** Reads *)

Section Reads.
Context `{Env}.

(** X9. Login, the user feed, the admin deposit listing, the profile
    lookup, the user listing and the stock listing never change the
    store, whatever the request and whatever the answer. *)
Theorem read_handlers_keep_store (s : store) :
  (forall req, (Server.login req s).2 = s /\ (Functions.login req s).2 = s)
  /\ (forall uid, (Server.list_deposits uid s).2 = s
                  /\ (Functions.list_deposits uid s).2 = s)
  /\ (forall key uid, (ServerMore.list_deposits_admin key uid s).2 = s)
  /\ (forall uid, (ServerMore.get_profile uid s).2 = s
                  /\ (FunctionsMore.get_profile uid s).2 = s)
  /\ (forall key, (ServerMore.list_users key s).2 = s
                  /\ (FunctionsMore.list_users key s).2 = s)
  /\ (ServerMore.list_stocks s).2 = s /\ (FunctionsMore.list_stocks s).2 = s.
Proof.
  repeat split; intros;
    unfold Server.login, Functions.login, Server.list_deposits, Functions.list_deposits,
      ServerMore.list_deposits_admin, ServerMore.get_profile, FunctionsMore.get_profile,
      ServerMore.list_users, FunctionsMore.list_users, ServerMore.list_stocks,
      FunctionsMore.list_stocks, try_catch, try_catch_reply,
      Server.findAuthByEmail, Functions.user_auth_where_email, Server.getUserProfile,
      Server.getBalance, Server.users_doc_get, Server.balances_doc_get,
      Functions.users_doc_get, Functions.balances_doc_get, bind, gets, ret, throw;
    repeat match goal with
      | |- context [if ?c then _ else _] => destruct c
      | |- context [match ?x with Some _ => _ | None => _ end] => destruct x
      end;
    reflexivity.
Qed.

(** X10. A login with a registered email and a password whose hash
    differs from the stored one is answered 401 [invalid_credentials] by
    both servers. *)
Theorem login_wrong_password
    (s : store) (req : login_req) (a : auth)
    (He : truthy (login_email req) = true)
    (Hp : truthy (login_password req) = true)
    (Hfound : find_row (email_is (str (login_email req))) (user_auth s) = Some a)
    (Hhash : password_hash a <> sha256_hex (str (login_password req))) :
  Server.login req s = (Err 401 "invalid_credentials", s)
  /\ Functions.login req s = (Err 401 "invalid_credentials", s).
Proof.
  apply String.eqb_neq in Hhash.
  unfold Server.login, Functions.login, try_catch. rewrite He, Hp. cbn [negb orb].
  unfold Server.findAuthByEmail, Functions.user_auth_where_email, Server.hashPassword,
    Functions.hashPassword, bind, gets, ret.
  fold (email_is (str (login_email req))). rewrite Hfound, Hhash. split; reflexivity.
Qed.

End Reads.

Lemma login_wrong_password_witness :
  Server.login (H := sample_env) (mkLoginReq (Some "ann@example.org") (Some "secret2"))
               c10_store
  = (Err 401 "invalid_credentials", c10_store).
Proof.
  apply (login_wrong_password (H := sample_env) c10_store
           (mkLoginReq (Some "ann@example.org") (Some "secret2"))
           (mkAuth "uid_k3x9a1b2c3d4" "ann@example.org" "sha256:secret1" 5)
           eq_refl eq_refl eq_refl).
  discriminate.
Defined.

(** ** Deposit attempts *)

Section Attempts.
Context `{Env}.

Lemma prefix_app (p t : string) : String.prefix p (p ++ t)%string = true.
Proof.
  induction p as [|c p IH]; [destruct t; reflexivity|].
  change (String.prefix (String c p) (String c (p ++ t)) = true).
  cbn [String.prefix]. destruct (ascii_dec c c); [exact IH | contradiction].
Qed.

Lemma attempt_not_in_feed (uid : string) (d : deposit) :
  attempt_note d -> Server.feed_where uid d = false.
Proof.
  intros Hd. destruct (Server.feed_where uid d) eqn:E; [|reflexivity].
  apply feed_where_spec in E. tauto.
Qed.

(** X11. A recorded deposit attempt (relational server) appends one
    ledger row with the requested amount and a [deposit_attempt_] or
    [gas_fee_attempt_] note, and touches no balance.  The user feed of
    every uid is the same before and after; the admin listing of the uid
    includes the new row as long as the uid has fewer than 50 rows. *)
Theorem deposit_attempt_hidden_from_feed
    (s : store) (req : attempt_req) (now : Z)
    (Hok : is_ok (Server.deposits_attempt req now s).1 = true) :
  let s' := (Server.deposits_attempt req now s).2 in
  users s' = users s /\ user_auth s' = user_auth s /\ balances s' = balances s
  /\ stocks s' = stocks s
  /\ (forall uid, (Server.list_deposits uid s').1 = (Server.list_deposits uid s).1)
  /\ exists d,
       deposits s' = (deposits s ++ [d])%list
       /\ attempt_note d
       /\ deposit_uid d = str (attempt_uid req)
       /\ amount_usd d = attempt_amountUsd req
       /\ ((length (List.filter (of_uid (str (attempt_uid req))) (deposits s)) < 50)%nat ->
           exists rows,
             (ServerMore.list_deposits_admin (Some ADMIN_KEY) (attempt_uid req) s').1
             = OkDeposits rows
             /\ In d rows).
Proof.
  revert Hok. unfold Server.deposits_attempt, try_catch.
  destruct (negb (truthy (attempt_uid req)) || negb (isFinite (attempt_amountUsd req))
            || num_leb (attempt_amountUsd req) (nz 0)
            || negb (truthy (attempt_asset req)) || negb (truthy (attempt_address req)))
    eqn:Hbad; [discriminate|].
  unfold Server.addDeposit, bind, gets, modify, ret.
  destruct (users s !! str (attempt_uid req)) as [u|]; cbn [bool_decide negb];
    [|rewrite bool_decide_eq_false_2 by apply is_Some_None; discriminate].
  rewrite bool_decide_eq_true_2 by (now exists u). cbn [negb fst snd].
  intros _.
  set (n := if bool_decide (attempt_depositType req = Some "gas_fee")
            then _ else _).
  set (d := mkDeposit (next_id s) (str (attempt_uid req)) (attempt_amountUsd req)
                      (Some n) now).
  assert (Hd : attempt_note d).
  { exists n. split; [reflexivity|]. subst n.
    destruct (bool_decide (attempt_depositType req = Some "gas_fee"));
      [right | left]; apply prefix_app. }
  cbn [users user_auth balances deposits stocks set_deposits].
  repeat (split; [reflexivity|]).
  split.
  - intros uid. unfold Server.list_deposits, try_catch, bind, gets, ret.
    destruct (negb (truthy uid)); [reflexivity|].
    cbn [fst deposits set_deposits]. rewrite List.filter_app. cbn [List.filter].
    rewrite (attempt_not_in_feed _ _ Hd), app_nil_r. reflexivity.
  - exists d. split; [reflexivity|]. split; [exact Hd|].
    split; [reflexivity|]. split; [reflexivity|].
    intros Hfew.
    assert (Huid : truthy (attempt_uid req) = true).
    { destruct (truthy (attempt_uid req)); [reflexivity | discriminate]. }
    unfold ServerMore.list_deposits_admin, try_catch, bind, gets, ret.
    rewrite bool_decide_eq_true_2 by reflexivity. rewrite Huid. cbn [negb fst].
    eexists. split; [reflexivity|].
    cbn [deposits set_deposits].
    fold (of_uid (str (attempt_uid req))).
    rewrite firstn_all2.
    + apply (Permutation_in _ (Permutation_sym (order_by_created_at_desc_perm _))).
      apply List.filter_In. split; [apply in_or_app; right; now left|].
      unfold of_uid, d. cbn [deposit_uid]. apply String.eqb_refl.
    + rewrite (Permutation_length (order_by_created_at_desc_perm _)).
      rewrite List.filter_app, length_app. cbn [List.filter].
      destruct (of_uid _ d); cbn [length]; lia.
Qed.

End Attempts.

Lemma deposit_attempt_hidden_from_feed_witness :
  (Server.list_deposits (Some "uid_k3x9a1b2c3d4")
     (Server.deposits_attempt x_attempt_req 7 c10_store).2).1
  = (Server.list_deposits (Some "uid_k3x9a1b2c3d4") c10_store).1.
Proof.
  destruct (deposit_attempt_hidden_from_feed (H := sample_env) c10_store x_attempt_req 7
              eq_refl) as (_ & _ & _ & _ & Hfeed & _).
  apply Hfeed.
Defined.

Lemma like_cons (c d : ascii) (p t : string) :
  Ascii.eqb c "%" = false ->
  Ascii.eqb c "_" || Ascii.eqb c d = true ->
  like p t = true ->
  like (String c p) (String d t) = true.
Proof.
  intros Hc Hd Hp. cbn [like]. now rewrite Hc, Hd, Hp.
Qed.

(** X12. In a [LIKE] pattern [_] stands for any one character, so the
    feed of the relational server also hides rows whose note merely has
    the shape [deposit?attempt?...] or [gas?fee?attempt?...], with any
    characters in place of the underscores. *)
Theorem feed_hides_lookalike_notes (uid : string) (d : deposit) (c1 c2 c3 : ascii)
    (tail : string)
    (Hnote : note d = Some ("deposit" ++ String c1 ("attempt" ++ String c2 tail))%string
             \/ note d = Some ("gas" ++ String c1 ("fee" ++ String c2
                                  ("attempt" ++ String c3 tail)))%string) :
  Server.feed_where uid d = false.
Proof.
  unfold Server.feed_where.
  destruct Hnote as [-> | ->]; cbn [Server.not_like].
  - replace (like "deposit_attempt_%" _) with true;
      [cbn [negb]; now rewrite andb_false_r|].
    symmetry. repeat (apply like_cons; [reflexivity | reflexivity |]). apply like_percent.
  - replace (like "gas_fee_attempt_%" _) with true; [apply andb_false_r|].
    symmetry. repeat (apply like_cons; [reflexivity | reflexivity |]). apply like_percent.
Qed.

Lemma feed_hides_lookalike_notes_witness :
  Server.feed_where "uid_a"
    (mkDeposit 1 "uid_a" (nz 5) (Some "deposit attempt 2 refunded") 3) = false.
Proof.
  apply (feed_hides_lookalike_notes "uid_a" _ " " " " " " "2 refunded").
  left. reflexivity.
Defined.

(** ** Register *)

Lemma Server_register_eq (req : register_req) (now : Z) (s : store) :
  truthy (register_uid req) = true ->
  Server.register req now s = register_result req now s.
Proof.
  intros Huid. unfold Server.register, register_result, try_catch. rewrite Huid.
  cbn [negb].
  unfold Server.users_doc_set, Server.balances_doc_get, Server.balances_doc_set,
    Server.balances_doc_update, Server.deposits_where_empty, Server.deposits_add,
    Server.users_doc_get, bind, gets, modify, ret, set_users, set_balances, set_deposits.
  cbn [users user_auth balances deposits stocks user_uid balance_uid fst snd].
  fold (default_entry (str (register_uid req))).
  change (or_null (Some "default")) with (Some "default").
  destruct (balances s !! str (register_uid req)) as [b|] eqn:Hb;
    [destruct (num_eqb (or0 (wallet_balance_usd b)) (nz 0))|];
    cbn [users user_auth balances deposits stocks fst snd];
    destruct (existsb _ (deposits s));
    cbn [users user_auth balances deposits stocks fst snd negb next_id];
    rewrite ?(alter_alt_Some _ _ _ _ Hb), ?lookup_insert_eq, ?Hb;
    reflexivity.
Qed.

(** X13. [register] with a uid never lowers or raises what a user holds:
    every balance document that existed is still there with the same
    [balance_usd] and the same home balance as the API reports it; a uid
    without a document gets [{0, 0}].  The user row of the uid is
    overwritten with the request's email and name and a new
    [created_at]; credentials and stocks are untouched. *)
Theorem register_keeps_funds
    (s : store) (req : register_req) (now : Z)
    (Huid : truthy (register_uid req) = true) :
  let uid := str (register_uid req) in
  let s' := (Server.register req now s).2 in
  users s' = <[uid := mkUser uid (or_null (register_email req))
                         (or_null (register_name req)) now]> (users s)
  /\ user_auth s' = user_auth s /\ stocks s' = stocks s
  /\ (forall k b, balances s !! k = Some b ->
        exists b', balances s' !! k = Some b'
                   /\ balance_usd b' = balance_usd b
                   /\ or0 (wallet_balance_usd b') = or0 (wallet_balance_usd b))
  /\ (forall k, k <> uid -> balances s' !! k = balances s !! k)
  /\ (balances s !! uid = None ->
      balances s' !! uid = Some (mkBalance uid (nz 0) (nz 0) now)).
Proof.
  intros uid s'. subst uid s'. rewrite (Server_register_eq _ _ _ Huid).
  unfold register_result. cbn [snd users user_auth balances stocks].
  repeat (split; [reflexivity|]).
  destruct (balances s !! str (register_uid req)) as [b0|] eqn:Hb0.
  - destruct (num_eqb (or0 (wallet_balance_usd b0)) (nz 0)) eqn:Hz.
    + split; [|split; [intros k Hk; now rewrite lookup_insert_ne by congruence
                      | discriminate]].
      intros k b Hkb. destruct (decide (k = str (register_uid req))) as [->|Hne].
      * rewrite lookup_insert_eq. eexists. split; [reflexivity|].
        assert (b = b0) as -> by congruence. cbn [balance_usd wallet_balance_usd].
        split; [reflexivity|].
        destruct (or0 (wallet_balance_usd b0)) as [q| | |]; try discriminate.
        cbn [num_eqb nz] in Hz. apply Qceqb_eq in Hz. subst q. reflexivity.
      * rewrite lookup_insert_ne by congruence. now exists b.
    + split; [intros k b Hkb; now exists b|]. split; [reflexivity | discriminate].
  - split; [|split; [intros k Hk; now rewrite lookup_insert_ne by congruence
                    | intros _; apply lookup_insert_eq]].
    intros k b Hkb. destruct (decide (k = str (register_uid req))) as [->|Hne];
      [congruence|].
    rewrite lookup_insert_ne by congruence. now exists b.
Qed.

Lemma register_keeps_funds_witness :
  balances (Server.register x_register_req 8 c10_store).2 !! "uid_k3x9a1b2c3d4"
  = balances c10_store !! "uid_k3x9a1b2c3d4"
  \/ exists b', balances (Server.register x_register_req 8 c10_store).2
                  !! "uid_k3x9a1b2c3d4" = Some b'
                /\ balance_usd b' = nz 0.
Proof.
  right.
  destruct (register_keeps_funds c10_store x_register_req 8 eq_refl)
    as (_ & _ & _ & Hkeep & _).
  destruct (Hkeep "uid_k3x9a1b2c3d4" (mkBalance "uid_k3x9a1b2c3d4" (nz 0) (nz 0) 5) eq_refl)
    as (b' & Hb' & Hgas & _).
  exists b'. split; [exact Hb' | exact Hgas].
Defined.

(** X14. [register] writes the [default] ledger entry of a uid at most
    once: after a registration the uid has such an entry, it was appended
    by this registration exactly when there was none, and registering the
    same uid again, with any email, name and time, appends nothing. *)
Theorem register_default_entry_once
    (s : store) (req req2 : register_req) (now now2 : Z)
    (Huid : truthy (register_uid req) = true)
    (Hsame : register_uid req2 = register_uid req) :
  let uid := str (register_uid req) in
  let s1 := (Server.register req now s).2 in
  existsb (default_entry uid) (deposits s1) = true
  /\ deposits s1
     = (if existsb (default_entry uid) (deposits s) then deposits s
        else deposits s ++ [mkDeposit (next_id s) uid (nz 0) (Some "default") now])%list
  /\ deposits (Server.register req2 now2 s1).2 = deposits s1.
Proof.
  intros uid s1. subst uid s1.
  assert (Huid2 : truthy (register_uid req2) = true) by now rewrite Hsame.
  rewrite (Server_register_eq req2 _ _ Huid2), (Server_register_eq req _ _ Huid).
  assert (Hhas : existsb (default_entry (str (register_uid req)))
                   (deposits (register_result req now s).2) = true).
  { unfold register_result. cbn [snd deposits].
    destruct (existsb _ (deposits s)) eqn:E; [exact E|].
    rewrite existsb_app. cbn [existsb]. unfold default_entry at 2.
    cbn [deposit_uid note]. rewrite String.eqb_refl, bool_decide_eq_true_2 by reflexivity.
    now rewrite orb_true_r. }
  split; [exact Hhas|]. split; [reflexivity|].
  unfold register_result at 1. cbn [snd deposits]. rewrite Hsame, Hhas. reflexivity.
Qed.

Lemma register_default_entry_once_witness :
  deposits (Server.register x_register_req 9
              (Server.register x_register_req 8 c10_store).2).2
  = deposits (Server.register x_register_req 8 c10_store).2.
Proof.
  destruct (register_default_entry_once c10_store x_register_req x_register_req 8 9
              eq_refl eq_refl) as (_ & _ & Hagain).
  exact Hagain.
Defined.

(** ** Profiles and the user listing *)

(** X15. The profile lookup agrees with what a withdrawal has just
    answered: after a successful withdrawal of a uid with a user row,
    [GET profile/:uid] of either server returns the very profile the
    withdrawal returned; for a uid without a user row the withdrawal
    still succeeds and the lookup answers 404 [not_found]. *)
Theorem profile_after_withdraw
    (s : store) (req : withdraw_req) (now : Z) (r : response) (s' : store)
    (Hrun : Server.withdraw req now s = (r, s') \/ Functions.withdraw req now s = (r, s'))
    (Hok : is_ok r = true) :
  let uid := str (withdraw_uid req) in
  match users s !! uid with
  | Some u =>
      exists p, r = OkProfile (Some p)
                /\ profile_user p = Some u
                /\ ServerMore.get_profile uid s' = (BareProfile p, s')
                /\ FunctionsMore.get_profile uid s' = (BareProfile p, s')
  | None =>
      ServerMore.get_profile uid s' = (Err 404 "not_found", s')
      /\ FunctionsMore.get_profile uid s' = (Err 404 "not_found", s')
  end.
Proof.
  intros uid. subst uid.
  assert (Hres : withdraw_result req now s = (r, s')).
  { destruct Hrun as [Hrun|Hrun];
      [rewrite <- Server_withdraw_eq | rewrite <- Functions_withdraw_eq]; exact Hrun. }
  destruct (withdraw_result_ok_state _ _ _ _ _ Hres Hok) as (b & Hb & Hs').
  assert (Hr : r = OkProfile (Some (mkProfile (users s !! str (withdraw_uid req))
                        (or0 (balance_usd (withdrawn req now b)))
                        (or0 (wallet_balance_usd (withdrawn req now b)))))).
  { revert Hres Hok. unfold withdraw_result. rewrite Hb.
    destruct (withdraw_invalid req); [intros [= <- _]; discriminate|].
    destruct (num_ltb _ (amountUsd req)); [intros [= <- _]; discriminate|].
    destruct (num_ltb _ (gasUsd req)); [intros [= <- _]; discriminate|].
    now intros [= <- _]. }
  unfold ServerMore.get_profile, FunctionsMore.get_profile, try_catch,
    Server.users_doc_get, Server.balances_doc_get, Functions.users_doc_get,
    Functions.balances_doc_get, bind, gets, ret.
  rewrite Hs'. cbn [users balances].
  destruct (users s !! str (withdraw_uid req)) as [u|].
  - cbn [balances]. rewrite lookup_insert_eq. eexists. split; [exact Hr|].
    split; [reflexivity|]. split; reflexivity.
  - split; reflexivity.
Qed.

Lemma profile_after_withdraw_witness :
  exists p, ServerMore.get_profile "uid_a"
              (Server.withdraw (mkWithdrawReq (Some "uid_a") (nz 30) (nz 5) NaN) 9 x_store).2
            = (BareProfile p,
               (Server.withdraw (mkWithdrawReq (Some "uid_a") (nz 30) (nz 5) NaN) 9 x_store).2)
            /\ profile_balance_usd p = nz 5.
Proof.
  pose proof (profile_after_withdraw x_store
                (mkWithdrawReq (Some "uid_a") (nz 30) (nz 5) NaN) 9
                (Server.withdraw (mkWithdrawReq (Some "uid_a") (nz 30) (nz 5) NaN) 9 x_store).1
                (Server.withdraw (mkWithdrawReq (Some "uid_a") (nz 30) (nz 5) NaN) 9 x_store).2
                (or_introl (surjective_pairing _)) eq_refl) as Hp.
  cbv zeta in Hp.
  change (users x_store !! str (withdraw_uid (mkWithdrawReq (Some "uid_a") (nz 30) (nz 5) NaN)))
    with (Some (mkUser "uid_a" (Some "ann@example.org") (Some "Ann") 1)) in Hp.
  destruct Hp as (p & Hr & _ & Hget & _).
  exists p. split; [exact Hget|].
  injection Hr as Hr. rewrite <- Hr. reflexivity.
Defined.



Section Listing.
Context `{Env}.


End Listing.

(** ** Stocks *)









Section StockFacts.
Context `{Env}.




(** X19. On the relational server, whose [stocks] table has none of the
    columns the two stock handlers name, the stock listing answers 500
    [internal_error] on every store and no stock update, valid or not,
    changes the store. *)
Theorem relational_stocks_unusable (s : store) :
  ServerMore.list_stocks s = (RErr 500 "internal_error", s)
  /\ forall req now, (Server.stocks_update_percentage req now s).2 = s
                     /\ is_ok (Server.stocks_update_percentage req now s).1 = false.
Proof.
  split; [reflexivity|]. intros req now.
  unfold Server.stocks_update_percentage, try_catch.
  destruct (negb (bool_decide _)); [split; reflexivity|].
  destruct (_ || _); [split; reflexivity|].
  destruct (negb (existsb _ _)); split; reflexivity.
Qed.

End StockFacts.



(** ** Percentage settings *)

Section Percentages.
Context `{Env}.

Lemma hasUid_truthy (uid : option string) :
  hasUid uid = true -> truthy uid = true /\ trim (str uid) <> "".
Proof.
  destruct uid as [u|]; [|discriminate]. cbn [hasUid truthy str default].
  intros Hlen. apply Nat.ltb_lt in Hlen.
  assert (Htrim : trim u <> "") by (intros E; rewrite E in Hlen; cbn in Hlen; lia).
  split; [|exact Htrim].
  destruct (String.eqb u "") eqn:E; [|reflexivity].
  apply String.eqb_eq in E. subst u. now elim Htrim.
Qed.

(** X20. A user-scoped percentage update that passes the checks (admin
    key, finite value at least 0, direction among [up], [down],
    [neutral], a uid with a user row) is read back by the next lookup of
    that uid.  The relational server looks the row up under the uid as
    sent; the document-store server looks it up under the trimmed uid, so
    there the value is read back when the uid has no surrounding white
    space. *)
Theorem percentage_user_round_trip
    (s : store) (t : gmap string percentage_row) (req : percentage_req) (now now' : Z)
    (Hkey : percentage_key req = Some ADMIN_KEY)
    (Hvalid : percentage_invalid req = false)
    (Huid : hasUid (percentage_uid req) = true)
    (Huser : is_Some (users s !! str (percentage_uid req))) :
  let uid := str (percentage_uid req) in
  let v := percentage_value req in
  let d := str (percentage_direction req) in
  ServerMore.percentage_update req now s t
  = (RPercentage (Some "user") (Some (mkView None v d None)),
     <[uid := mkRow uid v d now]> t)
  /\ ServerMore.percentage_current (percentage_uid req)
       (ServerMore.percentage_update req now s t).2
     = RPercentage None (Some (mkView None v d None))
  /\ FunctionsMore.percentage_update req now s t
     = (RPercentage (Some "user") (Some (mkView (Some uid) v d (Some now))),
        <[uid := mkRow uid v d now]> t)
  /\ (trim uid = uid ->
      FunctionsMore.percentage_current (percentage_uid req) now'
        (FunctionsMore.percentage_update req now s t).2
      = RPercentage (Some "user") (Some (mkView (Some uid) v d (Some now)))).
Proof.
  intros uid v d. subst uid v d.
  destruct Huser as [u Hu].
  unfold percentage_invalid in Hvalid.
  apply orb_false_elim in Hvalid as [Hvalue Hdir].
  assert (Hs : ServerMore.percentage_update req now s t
               = (RPercentage (Some "user")
                    (Some (mkView None (percentage_value req)
                             (str (percentage_direction req)) None)),
                  <[str (percentage_uid req) :=
                      mkRow (str (percentage_uid req)) (percentage_value req)
                            (str (percentage_direction req)) now]> t)).
  { unfold ServerMore.percentage_update.
    rewrite bool_decide_eq_true_2 by exact Hkey. cbn [negb].
    rewrite Hvalue, Hdir, Huid, Hu. reflexivity. }
  assert (Hf : FunctionsMore.percentage_update req now s t
               = (RPercentage (Some "user")
                    (Some (mkView (Some (str (percentage_uid req))) (percentage_value req)
                             (str (percentage_direction req)) (Some now))),
                  <[str (percentage_uid req) :=
                      mkRow (str (percentage_uid req)) (percentage_value req)
                            (str (percentage_direction req)) now]> t)).
  { unfold FunctionsMore.percentage_update.
    rewrite bool_decide_eq_true_2 by exact Hkey. cbn [negb].
    rewrite Hvalue, Hdir, Huid, Hu. cbv zeta. rewrite lookup_insert_eq. reflexivity. }
  rewrite Hs, Hf. cbn [snd].
  split; [reflexivity|]. split.
  - unfold ServerMore.percentage_current. rewrite Huid, lookup_insert_eq. reflexivity.
  - split; [reflexivity|]. intros Htrim.
    destruct (hasUid_truthy _ Huid) as [Htruthy Hne].
    unfold FunctionsMore.percentage_current, or_null. rewrite Htruthy.
    change (default "" (percentage_uid req)) with (str (percentage_uid req)).
    rewrite Htrim in Hne |- *.
    apply String.eqb_neq in Hne. rewrite Hne. cbn [negb].
    rewrite lookup_insert_eq. reflexivity.
Qed.

(** X21. A global percentage update (no uid) that passes the checks is
    accepted by the document-store server and read back by a lookup
    without uid.  The relational server, whose [user_percentages.uid]
    references [users(uid)], accepts it only when there is a user row
    with the uid [__global__]; otherwise it answers 500
    [internal_error] and the table stays as it was. *)
Theorem percentage_global_update
    (s : store) (t : gmap string percentage_row) (req : percentage_req) (now now' : Z)
    (Hkey : percentage_key req = Some ADMIN_KEY)
    (Hvalid : percentage_invalid req = false)
    (Huid : hasUid (percentage_uid req) = false) :
  let v := percentage_value req in
  let d := str (percentage_direction req) in
  FunctionsMore.percentage_update req now s t
  = (RPercentage (Some "global") (Some (mkView (Some GLOBAL_UID) v d (Some now))),
     <[GLOBAL_UID := mkRow GLOBAL_UID v d now]> t)
  /\ FunctionsMore.percentage_current None now'
       (FunctionsMore.percentage_update req now s t).2
     = RPercentage (Some "global") (Some (mkView (Some GLOBAL_UID) v d (Some now)))
  /\ (users s !! GLOBAL_UID = None ->
      ServerMore.percentage_update req now s t = (RErr 500 "internal_error", t))
  /\ (is_Some (users s !! GLOBAL_UID) ->
      ServerMore.percentage_update req now s t
      = (RPercentage (Some "global") (Some (mkView None v d None)),
         <[GLOBAL_UID := mkRow GLOBAL_UID v d now]> t)
      /\ ServerMore.percentage_current None (ServerMore.percentage_update req now s t).2
         = RPercentage None (Some (mkView None v d None))).
Proof.
  intros v d. subst v d.
  unfold percentage_invalid in Hvalid.
  apply orb_false_elim in Hvalid as [Hvalue Hdir].
  assert (Hf : FunctionsMore.percentage_update req now s t
               = (RPercentage (Some "global")
                    (Some (mkView (Some GLOBAL_UID) (percentage_value req)
                             (str (percentage_direction req)) (Some now))),
                  <[GLOBAL_UID := mkRow GLOBAL_UID (percentage_value req)
                                        (str (percentage_direction req)) now]> t)).
  { unfold FunctionsMore.percentage_update.
    rewrite bool_decide_eq_true_2 by exact Hkey. cbn [negb].
    rewrite Hvalue, Hdir, Huid. cbv zeta. rewrite lookup_insert_eq. reflexivity. }
  rewrite Hf. cbn [snd]. split; [reflexivity|]. split.
  { unfold FunctionsMore.percentage_current. cbn [or_null truthy default trim trim_start
      trim_end String.eqb negb]. rewrite lookup_insert_eq. reflexivity. }
  unfold ServerMore.percentage_update.
  rewrite bool_decide_eq_true_2 by exact Hkey. cbn [negb].
  rewrite Hvalue, Hdir, Huid. split.
  - intros ->. reflexivity.
  - intros [u ->]. cbn [snd]. split; [reflexivity|].
    unfold ServerMore.percentage_current. cbn [hasUid]. rewrite lookup_insert_eq.
    reflexivity.
Qed.

(** X22. A percentage update that is refused, for whatever reason and on
    either server, leaves the percentage table as it was; an accepted one
    changes the row of one key at most. *)
Theorem percentage_update_one_row
    (s : store) (t : gmap string percentage_row) (req : percentage_req) (now : Z) :
  let rs := ServerMore.percentage_update req now s t in
  let rf := FunctionsMore.percentage_update req now s t in
  (reply_ok rs.1 = false -> rs.2 = t)
  /\ (reply_ok rf.1 = false -> rf.2 = t)
  /\ (exists k, forall k', k' <> k -> rs.2 !! k' = t !! k')
  /\ (exists k, forall k', k' <> k -> rf.2 !! k' = t !! k').
Proof.
  cbv zeta.
  unfold ServerMore.percentage_update, FunctionsMore.percentage_update.
  destruct (negb (bool_decide _));
    [repeat split; try (exists ""); reflexivity|].
  destruct (_ || _); [repeat split; try (exists ""); reflexivity|].
  destruct (negb (existsb _ _)); [repeat split; try (exists ""); reflexivity|].
  destruct (hasUid (percentage_uid req)).
  - destruct (users s !! str (percentage_uid req));
      [|repeat split; try (exists ""); reflexivity].
    cbn [fst snd reply_ok].
    repeat split; try discriminate;
      exists (str (percentage_uid req)); intros k' Hk';
      now rewrite lookup_insert_ne by congruence.
  - destruct (users s !! GLOBAL_UID); cbn [fst snd reply_ok];
      repeat split; try discriminate; try reflexivity;
      exists GLOBAL_UID; intros k' Hk';
      rewrite ?lookup_insert_ne by congruence; reflexivity.
Qed.

End Percentages.

Lemma percentage_user_round_trip_witness :
  ServerMore.percentage_current (Some "uid_a")
    (ServerMore.percentage_update (H := sample_env) x_percentage_req 9 x_store ∅).2
  = RPercentage None (Some (mkView None (nz 12) "up" None)).
Proof.
  destruct (percentage_user_round_trip (H := sample_env) x_store ∅ x_percentage_req 9 10
              eq_refl eq_refl eq_refl ltac:(eexists; reflexivity))
    as (_ & Hread & _).
  exact Hread.
Defined.

Lemma percentage_global_update_witness :
  ServerMore.percentage_update (H := sample_env) x_global_req 9 x_store ∅
  = (RErr 500 "internal_error", ∅)
  /\ reply_ok (FunctionsMore.percentage_update (H := sample_env) x_global_req 9 x_store ∅).1
     = true.
Proof.
  destruct (percentage_global_update (H := sample_env) x_store ∅ x_global_req 9 10
              eq_refl eq_refl eq_refl) as (Hf & _ & Hs & _).
  split; [apply Hs; reflexivity|]. rewrite Hf. reflexivity.
Defined.

(** ** What no request undoes *)

Section Respects.
Variable R : store -> store -> Prop.
Hypothesis R_refl : forall s, R s s.
Hypothesis R_trans : forall a b c, R a b -> R b c -> R a c.

Lemma respects_ret {A} (a : A) : respects R (ret a).
Proof. intros s. apply R_refl. Qed.

Lemma respects_throw {A} : respects R (@throw A).
Proof. intros s. apply R_refl. Qed.

Lemma respects_gets {A} (f : store -> A) : respects R (gets f).
Proof. intros s. apply R_refl. Qed.

Lemma respects_bind {A B} (m : M A) (k : A -> M B) :
  respects R m -> (forall a, respects R (k a)) -> respects R (bind m k).
Proof.
  intros Hm Hk s. unfold bind. specialize (Hm s).
  destruct (m s) as [[a|] s1]; [|exact Hm].
  cbn [snd] in Hm. exact (R_trans _ _ _ Hm (Hk a s1)).
Qed.

Lemma respects_modify (f : store -> store) :
  (forall s, R s (f s)) -> respects R (modify f).
Proof. intros Hf s. apply Hf. Qed.

Lemma respects_try_catch (h : M response) (s : store) :
  respects R h -> R s (try_catch h s).2.
Proof.
  intros Hh. unfold try_catch. specialize (Hh s). destruct (h s) as [[r|] s1]; exact Hh.
Qed.

End Respects.

Lemma grows_refl (s : store) : grows s s.
Proof.
  repeat split; try (intros k Hk; exact Hk).
  exists []. split; [now rewrite app_nil_r|]. intros j d Hj. discriminate.
Qed.

Lemma grows_trans (a b c : store) : grows a b -> grows b c -> grows a c.
Proof.
  intros (Hu & Ha & Hb & Hs & l & Hl & Hids) (Hu' & Ha' & Hb' & Hs' & l' & Hl' & Hids').
  repeat split; try (intros k Hk; auto).
  exists (l ++ l')%list. split; [rewrite Hl', Hl; now rewrite app_assoc|].
  intros j d Hj. apply lookup_app_Some in Hj as [Hj|[Hlen Hj]].
  - now apply Hids.
  - rewrite (Hids' _ _ Hj), Hl, length_app. f_equal. lia.
Qed.

Lemma grows_users (f : gmap string user -> gmap string user) (s : store) :
  (forall k, is_Some (users s !! k) -> is_Some (f (users s) !! k)) ->
  grows s (set_users f s).
Proof.
  intros Hf. unfold set_users.
  repeat split; cbn [users user_auth balances stocks deposits]; auto.
  exists []. split; [now rewrite app_nil_r|]. intros j d Hj. discriminate.
Qed.

Lemma grows_user_auth (f : gmap string auth -> gmap string auth) (s : store) :
  (forall k, is_Some (user_auth s !! k) -> is_Some (f (user_auth s) !! k)) ->
  grows s (set_user_auth f s).
Proof.
  intros Hf. unfold set_user_auth.
  repeat split; cbn [users user_auth balances stocks deposits]; auto.
  exists []. split; [now rewrite app_nil_r|]. intros j d Hj. discriminate.
Qed.

Lemma grows_balances (f : gmap string balance -> gmap string balance) (s : store) :
  (forall k, is_Some (balances s !! k) -> is_Some (f (balances s) !! k)) ->
  grows s (set_balances f s).
Proof.
  intros Hf. unfold set_balances.
  repeat split; cbn [users user_auth balances stocks deposits]; auto.
  exists []. split; [now rewrite app_nil_r|]. intros j d Hj. discriminate.
Qed.

Lemma grows_stocks (f : gmap string stock -> gmap string stock) (s : store) :
  (forall k, is_Some (stocks s !! k) -> is_Some (f (stocks s) !! k)) ->
  grows s (set_stocks f s).
Proof.
  intros Hf. unfold set_stocks.
  repeat split; cbn [users user_auth balances stocks deposits]; auto.
  exists []. split; [now rewrite app_nil_r|]. intros j d Hj. discriminate.
Qed.

Lemma grows_append (s : store) (uid : string) (amount : num) (n : option string) (now : Z) :
  grows s (set_deposits (fun l => (l ++ [mkDeposit (next_id s) uid amount n now])%list) s).
Proof.
  unfold set_deposits.
  repeat split; cbn [users user_auth balances stocks deposits]; auto.
  eexists. split; [reflexivity|].
  intros [|j] d Hj; [|discriminate]. injection Hj as <-.
  cbn [deposit_id]. unfold next_id. f_equal. lia.
Qed.

Ltac keys_kept :=
  intros ? ?;
  repeat match goal with
    | |- context [match ?x with Some _ => _ | None => _ end] => destruct x
    end;
  rewrite ?lookup_insert_is_Some', ?lookup_alter_is_Some; auto.

Ltac grow :=
  repeat first
    [ apply (respects_ret grows grows_refl)
    | apply (respects_throw grows grows_refl)
    | apply (respects_gets grows grows_refl)
    | apply (respects_bind grows grows_trans); [|intros ?]
    | apply respects_modify; intros ?;
      first [ apply grows_append
            | apply grows_users; keys_kept
            | apply grows_user_auth; keys_kept
            | apply grows_balances; keys_kept
            | apply grows_stocks; keys_kept ]
    | match goal with
      | |- respects grows (if ?c then _ else _) => destruct c eqn:?
      | |- respects grows (match ?x with _ => _ end) => destruct x eqn:?
      end ].

Lemma auth_kept_refl (s : store) : auth_kept s s.
Proof. reflexivity. Qed.

Lemma auth_kept_trans (a b c : store) : auth_kept a b -> auth_kept b c -> auth_kept a c.
Proof. unfold auth_kept. congruence. Qed.

Ltac keep_auth :=
  repeat first
    [ apply (respects_ret auth_kept auth_kept_refl)
    | apply (respects_throw auth_kept auth_kept_refl)
    | apply (respects_gets auth_kept auth_kept_refl)
    | apply (respects_bind auth_kept auth_kept_trans); [|intros ?]
    | apply respects_modify; intros ?; reflexivity
    | match goal with
      | |- respects auth_kept (if ?c then _ else _) => destruct c eqn:?
      | |- respects auth_kept (match ?x with _ => _ end) => destruct x eqn:?
      end ].

Ltac open_handlers :=
  cbv zeta;
  unfold Server.findAuthByEmail, Server.createUserRecord, Server.createAuthRecord,
    Server.upsertBalance, Server.addDeposit, Server.getUserProfile, Server.getBalance,
    Server.users_doc_set, Server.balances_doc_get, Server.balances_doc_set,
    Server.balances_doc_update, Server.deposits_where_empty, Server.deposits_add,
    Server.users_doc_get, Server.upsert_stock, Server.increment,
    Functions.user_auth_where_email, Functions.users_doc_set,
    Functions.user_auth_doc_set, Functions.balances_doc_set, Functions.deposits_add,
    Functions.users_doc_get, Functions.balances_doc_get, Functions.balances_doc_update,
    Functions.stocks_doc_set, Functions.increment.

Section Growth.
Context `{Env}.

Lemma step_grows (s s' : store) : step s s' -> grows s s'.
Proof.
  intros Hstep.
  destruct Hstep;
    [ unfold Server.signup | unfold Server.register | unfold Server.deposits_manual
    | unfold Server.deposits_manual_home | unfold Server.deposits_attempt
    | unfold Server.stocks_update_percentage | unfold Server.withdraw
    | unfold Functions.signup | unfold Functions.deposits_manual
    | unfold Functions.stocks_update_percentage | unfold Functions.withdraw ];
    apply (respects_try_catch grows); open_handlers; grow.
Qed.




End Growth.



(** ** Credentials *)

Section Credentials.
Context `{Env}.

Lemma step_auth_kept (s s' : store) :
  step s s' ->
  auth_kept s s'
  \/ exists fresh now u a,
       s' = signed_up fresh now u a s
       /\ auth_uid a = ("uid_" ++ fresh)%string
       /\ find_row (email_is (auth_email a)) (user_auth s) = None.
Proof.
  intros Hstep.
  destruct Hstep as [req fresh now s|req now s|req now s|req now s|req now s|req now s
                    |req now s|req fresh now s|req now s|req now s|req now s].
  - destruct (is_ok (Server.signup req fresh now s).1) eqn:Hok.
    + destruct (Server_signup_state req fresh now s _ _ (surjective_pairing _) Hok)
        as (u & a & Hs' & _ & _ & _ & Hemail & _ & _ & Hnone & Huid).
      right. exists fresh, now, u, a. rewrite Hemail. auto.
    + left. unfold auth_kept. now rewrite Server_signup_error.
  - left. unfold Server.register.
    apply (respects_try_catch auth_kept); open_handlers; keep_auth.
  - left. unfold Server.deposits_manual.
    apply (respects_try_catch auth_kept); open_handlers; keep_auth.
  - left. unfold Server.deposits_manual_home.
    apply (respects_try_catch auth_kept); open_handlers; keep_auth.
  - left. unfold Server.deposits_attempt.
    apply (respects_try_catch auth_kept); open_handlers; keep_auth.
  - left. unfold Server.stocks_update_percentage.
    apply (respects_try_catch auth_kept); open_handlers; keep_auth.
  - left. unfold Server.withdraw.
    apply (respects_try_catch auth_kept); open_handlers; keep_auth.
  - destruct (is_ok (Functions.signup req fresh now s).1) eqn:Hok.
    + destruct (Functions_signup_state req fresh now s _ _ (surjective_pairing _) Hok)
        as (u & a & Hs' & _ & _ & _ & Hemail & _ & _ & Hnone & Huid).
      right. exists fresh, now, u, a. rewrite Hemail. auto.
    + left. unfold auth_kept. now rewrite Functions_signup_error.
  - left. unfold Functions.deposits_manual.
    apply (respects_try_catch auth_kept); open_handlers; keep_auth.
  - left. unfold Functions.stocks_update_percentage.
    apply (respects_try_catch auth_kept); open_handlers; keep_auth.
  - left. unfold Functions.withdraw.
    apply (respects_try_catch auth_kept); open_handlers; keep_auth.
Qed.

Lemma step_credentials_ok (s s' : store) :
  step s s' -> credentials_ok s -> credentials_ok s'.
Proof.
  intros Hstep [Hrow Huniq].
  destruct (step_auth_kept _ _ Hstep) as [Hkept|(fresh & now & u & a & -> & Huid & Hnone)].
  - destruct (step_grows _ _ Hstep) as (Hu & _ & Hb & _).
    unfold auth_kept in Hkept. split.
    + intros k a0 Hk. rewrite Hkept in Hk. destruct (Hrow _ _ Hk) as (? & ? & ?).
      split; [assumption|]. split; [now apply Hu | now apply Hb].
    + intros k1 k2 a1 a2. rewrite Hkept. apply Huniq.
  - assert (Hother : forall k a0, user_auth s !! k = Some a0 ->
                                  auth_email a0 <> auth_email a).
    { intros k a0 Hk Heq. pose proof (find_row_None _ _ Hnone _ _ Hk) as Hno.
      unfold email_is in Hno. rewrite Heq, String.eqb_refl in Hno. discriminate. }
    unfold signed_up. split; cbn [users user_auth balances].
    + intros k a0. destruct (decide (("uid_" ++ fresh)%string = k)) as [<-|Hne].
      * rewrite !lookup_insert_eq. intros [= <-]. split; [exact Huid|]. split; eauto.
      * rewrite !lookup_insert_ne by exact Hne. apply Hrow.
    + intros k1 k2 a1 a2.
      destruct (decide (("uid_" ++ fresh)%string = k1)) as [<-|Hne1],
               (decide (("uid_" ++ fresh)%string = k2)) as [<-|Hne2];
        rewrite ?lookup_insert_eq, ?lookup_insert_ne by assumption.
      * reflexivity.
      * intros [= <-] H2 Heq. symmetry in Heq. now elim (Hother _ _ H2).
      * intros H1 [= <-] Heq. now elim (Hother _ _ H1).
      * apply Huniq.
Qed.

Lemma steps_credentials_ok (s s' : store) :
  rtc step s s' -> credentials_ok s -> credentials_ok s'.
Proof.
  induction 1 as [s|s1 s2 s3 Hstep _ IH]; intros Hs; [exact Hs|].
  apply IH. now apply (step_credentials_ok s1).
Qed.

(** X25. In every store reached from the empty one, each credential row
    is stored under its own uid and that uid has a user row and a
    balance document; no two credential rows carry the same email, so a
    login by email can only ever match one account. *)
Theorem reachable_credentials (s : store) (Hs : reachable s) : credentials_ok s.
Proof.
  apply (steps_credentials_ok _ _ Hs).
  split; [intros k a Hk | intros k1 k2 a1 a2 Hk]; cbn [empty_store user_auth] in Hk;
    rewrite lookup_empty in Hk; discriminate.
Qed.


End Credentials.

Lemma reachable_credentials_witness : credentials_ok c10_store.
Proof.
  apply (reachable_credentials (H := sample_env) c10_store).
  apply rtc_once.
  exact (step_functions_signup (H := sample_env) c9_req "k3x9a1b2c3d4" 5 empty_store).
Defined.


Lemma percentage_update_one_row_witness :
  (ServerMore.percentage_update (H := sample_env) x_global_req 9 x_store ∅).2 = ∅.
Proof.
  destruct (percentage_update_one_row (H := sample_env) x_store ∅ x_global_req 9)
    as (Hrefused & _).
  apply Hrefused. reflexivity.
Defined.
